(** * droid-application: the LED state store and waveform driver of [main.py]

    A shallow embedding of the non-UI part of [src/main.py]:
    the [DroidState] record, [LEDController.apply_state], and the two event
    handlers [on_toggle_change] and [on_rate_change].

    Python floats are IEEE-754 binary64 values; they are modelled with the
    executable specification of [SpecFloat] at precision 53 and maximal
    exponent 1024, so that NaN, the infinities, signed zeros and rounding
    are the ones the program sees.  Python exceptions are an explicit
    result type, and the two module-level objects [state] and
    [led_controller] form the store that the handlers thread through. *)

From Stdlib Require Import ZArith QArith Qminmax Bool List String Ascii Lia.
From Stdlib Require Import Floats.SpecFloat.
Import ListNotations.

Local Open Scope Z_scope.

(* ===================================================================== *)
(** * Binary64 arithmetic *)
(* ===================================================================== *)

Module B64.

Definition prec : Z := 53.
Definition emax : Z := 1024.

(** A Python [float]. *)
Definition float : Type := spec_float.

Definition nan : float := S754_nan.
Definition inf : float := S754_infinity false.
Definition zero : float := S754_zero false.
Definition neg_zero : float := S754_zero true.

(** Conversion of an integer, rounding to nearest, ties to even. *)
Definition of_Z (z : Z) : float := binary_normalize prec emax z 0 false.

(** The literals of the program: [0.0], [1.0], [2.0] and [50.0]. *)
Definition one : float := S754_finite false 4503599627370496 (-52).
Definition two : float := S754_finite false 4503599627370496 (-51).
Definition fifty : float := S754_finite false 7036874417766400 (-47).

Definition div (x y : float) : float := SFdiv prec emax x y.
Definition mul (x y : float) : float := SFmul prec emax x y.

(** Python's [x < y], [x <= y] and [x > y] on floats: every comparison
    with NaN is false. *)
Definition ltb (x y : float) : bool := SFltb x y.
Definition leb (x y : float) : bool := SFleb x y.
Definition gtb (x y : float) : bool := SFltb y x.

Definition is_nan (x : float) : bool :=
  match x with S754_nan => true | _ => false end.

Definition is_zero (x : float) : bool :=
  match x with S754_zero _ => true | _ => false end.

Definition is_finite (x : float) : bool :=
  match x with S754_zero _ | S754_finite _ _ _ => true | _ => false end.

(** [x] is a real number of the binary64 format: finite, with a
    canonical mantissa and exponent. *)
Definition is_real (x : float) : bool :=
  is_finite x && valid_binary prec emax x.

(** The rational value of a finite float (0 by convention elsewhere). *)
Definition to_Q (x : float) : Q :=
  match x with
  | S754_finite s m e =>
      let z := if s then Zneg m else Zpos m in
      match e with
      | Z0 => z # 1
      | Zpos p => (z * 2 ^ Zpos p) # 1
      | Zneg p => z # (2 ^ p)%positive
      end
  | _ => 0%Q
  end.

End B64.

Definition float : Type := B64.float.

(* ===================================================================== *)
(** * Python values, exceptions and the builtins the program calls *)
(* ===================================================================== *)

(** The exceptions that the builtins used by [main.py] can raise. *)
Inductive exn : Type :=
| TypeError
| ValueError
| OverflowError
| ZeroDivisionError.

Definition exn_eqb (a b : exn) : bool :=
  match a, b with
  | TypeError, TypeError | ValueError, ValueError
  | OverflowError, OverflowError | ZeroDivisionError, ZeroDivisionError => true
  | _, _ => false
  end.

Inductive result (A : Type) : Type :=
| Ok (a : A)
| Raise (x : exn).
Arguments Ok {A} a.
Arguments Raise {A} x.

#[local] Set Warnings "-register-all".

(** The values an event can carry in its [value] attribute: what the
    transport layer decodes from JSON. *)
Inductive pyval : Type :=
| PyNone
| PyBool (b : bool)
| PyInt (z : Z)
| PyFloat (f : float)
| PyStr (s : string)
| PyList (l : list pyval)
| PyDict (d : list (string * pyval)).

(** The argument [e] of a handler; only [e.value] is read. *)
Record event : Type := { value : pyval }.

(** [bool(v)]: Python truthiness. *)
Definition py_bool (v : pyval) : bool :=
  match v with
  | PyNone => false
  | PyBool b => b
  | PyInt z => negb (z =? 0)
  | PyFloat f => negb (B64.is_zero f)
  | PyStr s => negb (String.eqb s EmptyString)
  | PyList l => match l with [] => false | _ => true end
  | PyDict d => match d with [] => false | _ => true end
  end.

(** [x / y] on floats: division by a zero raises [ZeroDivisionError]. *)
Definition py_truediv (x y : float) : result float :=
  if B64.is_zero y then Raise ZeroDivisionError else Ok (B64.div x y).

(** [float(int)]: correctly rounded, [OverflowError] when the integer is
    too large for a double. *)
Definition float_of_int (z : Z) : result float :=
  match B64.of_Z z with
  | S754_infinity _ => Raise OverflowError
  | f => Ok f
  end.

Section Builtins.

(** CPython's string-to-double parser: [None] stands for a string that
    [float] rejects with [ValueError].  The handlers are defined, and
    their properties proved, for any such parser; [float_literal] below
    is the instance used on concrete inputs. *)
Variable str_to_float : string -> option float.

(** [float(v)]. *)
Definition py_float (v : pyval) : result float :=
  match v with
  | PyFloat f => Ok f
  | PyInt z => float_of_int z
  | PyBool b => Ok (if b then B64.one else B64.zero)
  | PyStr s =>
      match str_to_float s with
      | Some f => Ok f
      | None => Raise ValueError
      end
  | PyNone | PyList _ | PyDict _ => Raise TypeError
  end.

End Builtins.

(* ===================================================================== *)
(** * A state and exception monad *)
(* ===================================================================== *)

(** A computation over a store [S]: it returns a value or raises, and in
    both cases leaves a store behind (an assignment made before an
    exception is not rolled back). *)
Definition M (S A : Type) : Type := S -> result A * S.

Definition ret {S A} (a : A) : M S A := fun s => (Ok a, s).

Definition bind {S A B} (c : M S A) (k : A -> M S B) : M S B :=
  fun s =>
    match c s with
    | (Ok a, s') => k a s'
    | (Raise x, s') => (Raise x, s')
    end.

Definition lift {S A} (r : result A) : M S A := fun s => (r, s).

Definition gets {S A} (f : S -> A) : M S A := fun s => (Ok (f s), s).

Definition modify {S} (f : S -> S) : M S unit := fun s => (Ok tt, f s).

(** [try: body  except (x1, ..., xn): handler]. *)
Definition try_except {S A} (body : M S A) (caught : list exn)
    (handler : M S A) : M S A :=
  fun s =>
    match body s with
    | (Ok a, s') => (Ok a, s')
    | (Raise x, s') =>
        if existsb (exn_eqb x) caught then handler s' else (Raise x, s')
    end.

(** Runs a computation on a part of the store and writes the part back. *)
Definition zoom {S T A} (get : S -> T) (set : T -> S -> S) (c : M T A) : M S A :=
  fun s => let (r, t) := c (get s) in (r, set t s).

Declare Scope py_scope.
Delimit Scope py_scope with py.
Notation "x <- c ;; k" := (bind c (fun x => k))
  (at level 61, c at next level, right associativity) : py_scope.
Notation "c ;; k" := (bind c (fun _ => k))
  (at level 61, right associativity) : py_scope.
Local Open Scope py_scope.

(* ===================================================================== *)
(** * The hardware boundary: gpiozero's [LED] *)
(* ===================================================================== *)

(** The two behavioural modes of the output. *)
Inductive led_mode : Type :=
| STEADY_OFF
| BLINKING (on_time off_time : float).

(** The device object: its pin, what the pin is doing now, and how many
    background blink threads have been started on it so far. *)
Record LED : Type := {
  pin : Z;
  mode : led_mode;
  blink_threads : nat
}.

(** [LED(gpio_pin)]: a fresh device is off. *)
Definition LED_new (gpio_pin : Z) : LED :=
  {| pin := gpio_pin; mode := STEADY_OFF; blink_threads := 0 |}.

(** [led.off()]: stops a running blink and drives the pin low. *)
Definition LED_off (l : LED) : LED :=
  {| pin := pin l; mode := STEADY_OFF; blink_threads := blink_threads l |}.

(** [led.blink(on_time, off_time, background=True)]: stops a running blink
    and starts a new background thread that repeats the cycle. *)
Definition LED_blink (on_time off_time : float) (l : LED) : LED :=
  {| pin := pin l;
     mode := BLINKING on_time off_time;
     blink_threads := S (blink_threads l) |}.

(* ===================================================================== *)
(** * Domain / state layer *)
(* ===================================================================== *)

(** [class DroidState]. *)
Record DroidState : Type := {
  enabled : bool;
  flash_rate_hz : float
}.

(** [DroidState.__init__] with its default arguments. *)
Definition DroidState_init (enabled0 : bool) (flash_rate_hz0 : float) : DroidState :=
  {| enabled := enabled0; flash_rate_hz := flash_rate_hz0 |}.

Definition DroidState_default : DroidState := DroidState_init false B64.one.

(** [class LEDController]. *)
Record LEDController : Type := { led : LED }.

Definition LEDController_init (gpio_pin : Z) : LEDController :=
  {| led := LED_new gpio_pin |}.

(** The two objects [apply_state] can reach: [self] and its argument
    [state], both passed by reference. *)
Definition objs : Type := (LEDController * DroidState)%type.

Definition self_led_off : M objs unit :=
  modify (fun o => ({| led := LED_off (led (fst o)) |}, snd o)).

Definition self_led_blink (on_time off_time : float) : M objs unit :=
  modify (fun o => ({| led := LED_blink on_time off_time (led (fst o)) |}, snd o)).

(** [LEDController.apply_state(self, state)]. *)
Definition apply_state : M objs unit :=
  state_enabled <- gets (fun o => enabled (snd o)) ;;
  state_flash_rate_hz <- gets (fun o => flash_rate_hz (snd o)) ;;
  if negb state_enabled || B64.leb state_flash_rate_hz B64.zero then
    self_led_off ;;
    ret tt
  else
    period <- lift (py_truediv B64.one state_flash_rate_hz) ;;
    on_time <- lift (py_truediv period B64.two) ;;
    off_time <- lift (py_truediv period B64.two) ;;
    self_led_blink on_time off_time.

(** The module-level objects [state] and [led_controller]. *)
Record World : Type := {
  state : DroidState;
  led_controller : LEDController
}.

(** The store right after the module has been loaded. *)
Definition World_init : World :=
  {| state := DroidState_default; led_controller := LEDController_init 17 |}.

(* ===================================================================== *)
(** * UI / interaction layer *)
(* ===================================================================== *)

(** [update_hardware()]: [led_controller.apply_state(state)]. *)
Definition update_hardware : M World unit :=
  zoom (fun w => (led_controller w, state w))
       (fun o _ => {| state := snd o; led_controller := fst o |})
       apply_state.

Definition set_enabled (b : bool) : M World unit :=
  modify (fun w =>
    {| state := {| enabled := b; flash_rate_hz := flash_rate_hz (state w) |};
       led_controller := led_controller w |}).

Definition set_flash_rate_hz (f : float) : M World unit :=
  modify (fun w =>
    {| state := {| enabled := enabled (state w); flash_rate_hz := f |};
       led_controller := led_controller w |}).

(** [on_toggle_change(e)]. *)
Definition on_toggle_change (e : event) : M World unit :=
  set_enabled (py_bool (value e)) ;;
  update_hardware.

Section Handlers.

Variable str_to_float : string -> option float.

(** [on_rate_change(e)]. *)
Definition on_rate_change (e : event) : M World unit :=
  value0 <- try_except
              (match value e with
               | PyNone => ret B64.zero
               | v => lift (py_float str_to_float v)
               end)
              [TypeError; ValueError]
              (ret B64.zero) ;;
  let value1 := if B64.ltb value0 B64.zero then B64.zero else value0 in
  let value2 := if B64.gtb value1 B64.fifty then B64.fifty else value1 in
  set_flash_rate_hz value2 ;;
  update_hardware.

End Handlers.

(** The stored rate read back from a store, and the mode of the output. *)
Definition rate_of (w : World) : float := flash_rate_hz (state w).
Definition mode_of (w : World) : led_mode := mode (led (led_controller w)).

(** The two callbacks registered on the widgets:
    [led_switch.on('change', on_toggle_change)] and
    [rate_input.on('change', on_rate_change)]. *)
Inductive ui_event : Type :=
| ToggleChange (e : event)
| RateChange (e : event).

Section EventLoop.

Variable str_to_float : string -> option float.

(** The handler that the framework calls for an event. *)
Definition dispatch (ev : ui_event) : M World unit :=
  match ev with
  | ToggleChange e => on_toggle_change e
  | RateChange e => on_rate_change str_to_float e
  end.

(** The events are handled one at a time, in order.  An exception ends
    the handler that raised it; the store stays as that handler left it
    and the next event is handled from there. *)
Definition run_events (evs : list ui_event) (w : World) : World :=
  fold_left (fun w ev => snd (dispatch ev w)) evs w.

End EventLoop.

(** The output is up to date: pushing the state to the hardware once more
    would command the mode the output is already in. *)
Definition in_sync (w : World) : Prop :=
  mode_of (snd (update_hardware w)) = mode_of w.

(* ===================================================================== *)
(** * A parser for float literals *)
(* ===================================================================== *)

(** The instance of [str_to_float] used on concrete inputs: the grammar
    that [float] accepts on ASCII text; Unicode whitespace and Unicode
    decimal digits, which [float] also accepts, are not read here.  On
    ASCII text it reads surrounding whitespace, a sign, [inf], [infinity]
    and [nan] in any letter case, decimal digits with single underscores
    between them, a fraction and an exponent, and it rounds the decimal
    value to the nearest double, ties to even. *)
Module FloatLiteral.

Local Open Scope char_scope.
Local Open Scope Z_scope.

Definition code (c : ascii) : Z := Z.of_N (N_of_ascii c).

Definition is_space (c : ascii) : bool :=
  ((9 <=? code c) && (code c <=? 13)) || (code c =? 32).

Definition digit_of (c : ascii) : option Z :=
  if (48 <=? code c) && (code c <=? 57) then Some (code c - 48) else None.

Definition is_digit (c : ascii) : bool :=
  match digit_of c with Some _ => true | None => false end.

Definition lower (c : ascii) : ascii :=
  if (65 <=? code c) && (code c <=? 90)
  then ascii_of_N (Z.to_N (code c + 32)) else c.

Fixpoint lstrip (l : list ascii) : list ascii :=
  match l with
  | c :: r => if is_space c then lstrip r else l
  | [] => []
  end.

Definition strip (l : list ascii) : list ascii :=
  rev (lstrip (rev (lstrip l))).

(** Reads [digit (["_"] digit)*] after [n] digits of value [acc] have been
    read; an underscore is taken only between two digits. *)
Fixpoint digits_from (l : list ascii) (acc : Z) (n : nat)
  : Z * nat * list ascii :=
  match l with
  | c :: r =>
      match digit_of c with
      | Some d => digits_from r (10 * acc + d) (S n)
      | None =>
          match n, r with
          | S _, c' :: _ =>
              if Ascii.eqb c "_" && is_digit c'
              then digits_from r acc n else (acc, n, l)
          | _, _ => (acc, n, l)
          end
      end
  | [] => (acc, n, l)
  end.

Definition digitpart (l : list ascii) : Z * nat * list ascii :=
  digits_from l 0 O.

Definition sign_of (l : list ascii) : bool * list ascii :=
  match l with
  | "-" :: r => (true, r)
  | "+" :: r => (false, r)
  | _ => (false, l)
  end.

(** [(e | E) [sign] digitpart]; an absent exponent is 0, a malformed one
    is left unread. *)
Definition exponent (l : list ascii) : Z * list ascii :=
  match l with
  | c :: r =>
      if Ascii.eqb (lower c) "e" then
        let '(s, r1) := sign_of r in
        match digitpart r1 with
        | (_, O, _) => (0, l)
        | (v, S _, r2) => (if s then - v else v, r2)
        end
      else (0, l)
  | [] => (0, l)
  end.

(** The double nearest to [m * 10 ^ e10] for [m > 0]. *)
Definition round_decimal (s : bool) (m : positive) (e10 : Z) : float :=
  match e10 with
  | Zneg k =>
      let '(q, e, l) :=
        SFdiv_core_binary B64.prec B64.emax (Zpos m) 0 (10 ^ Zpos k) 0 in
      binary_round_aux B64.prec B64.emax s q e l
  | _ => binary_round B64.prec B64.emax s (m * Z.to_pos (10 ^ e10)) 0
  end.

(** [[digitpart] "." digitpart | digitpart ["."]], then the exponent. *)
Definition number (s : bool) (l : list ascii) : option float :=
  let '(ip, ni, r1) := digitpart l in
  let '(fp, nf, r2) :=
    match r1 with
    | "." :: r => digitpart r
    | _ => (0, O, r1)
    end in
  match ni, nf with
  | O, O => None
  | _, _ =>
      match exponent r2 with
      | (x, []) =>
          match ip * 10 ^ Z.of_nat nf + fp with
          | Zpos m => Some (round_decimal s m (x - Z.of_nat nf))
          | _ => Some (S754_zero s)
          end
      | (_, _ :: _) => None
      end
  end.

Definition float_literal (str : string) : option float :=
  let '(s, body) := sign_of (strip (list_ascii_of_string str)) in
  let word := string_of_list_ascii (map lower body) in
  if String.eqb word "inf"%string || String.eqb word "infinity"%string
  then Some (S754_infinity s)
  else if String.eqb word "nan"%string then Some S754_nan
  else number s body.

End FloatLiteral.

Definition float_literal : string -> option float := FloatLiteral.float_literal.

(* ===================================================================== *)
(** * Specification-side definitions *)
(* ===================================================================== *)

(** The clamp as the specification words it: [max(0, min(50, n))], on
    real numbers. *)
Definition spec_clamp (n : Q) : Q := Qmax 0 (Qmin 50 n).

(** The data-model invariant: the stored rate lies in [[0, 50]]. *)
Definition rate_in_range (f : float) : bool :=
  B64.leb B64.zero f && B64.leb f B64.fifty.

(** The two clamping statements of [on_rate_change], as a function of the
    converted value. *)
Definition clamped (value0 : float) : float :=
  let value1 := if B64.ltb value0 B64.zero then B64.zero else value0 in
  if B64.gtb value1 B64.fifty then B64.fifty else value1.

(** The [state] object of a store has the given fields. *)
Definition same_state_as (en : bool) (rate : float) (w : World) : Prop :=
  enabled (state w) = en /\ flash_rate_hz (state w) = rate.

(** A positive normal double below 2^1020: the rates from 2^-1022 on for
    which neither [1 / r] nor [2 * r] leaves the normal range. *)
Definition normal_rate (r : float) : bool :=
  match r with
  | S754_finite false m e =>
      (Zpos (digits2_pos m) =? 53) && (-1074 <=? e) && (e <=? 967)
  | _ => false
  end.

(** An absent value ([None]) or one that [float] cannot convert: a string
    that is not a float literal, or a container. *)
Definition absent_or_non_numeric (str_to_float : string -> option float)
    (v : pyval) : bool :=
  match v with
  | PyNone => true
  | PyStr s => match str_to_float s with None => true | Some _ => false end
  | PyList _ | PyDict _ => true
  | PyBool _ | PyInt _ | PyFloat _ => false
  end.

(* ===================================================================== *)
(** * The waveform driver: [apply_state] *)
(* ===================================================================== *)

Local Open Scope Z_scope.

(** What [apply_state] leaves behind on each of its two paths. *)
Lemma apply_state_off_path (self : LEDController) (st : DroidState) :
  negb (enabled st) || B64.leb (flash_rate_hz st) B64.zero = true ->
  apply_state (self, st) = (Ok tt, ({| led := LED_off (led self) |}, st)).
Proof.
  intros H. unfold apply_state, bind, gets. cbn [fst snd].
  rewrite H. reflexivity.
Qed.

Lemma leb_zero_false_not_zero (r : float) :
  B64.leb r B64.zero = false -> B64.is_zero r = false.
Proof. destruct r as [s|s| |s m e]; try reflexivity; destruct s; discriminate. Qed.

Lemma apply_state_blink_path (self : LEDController) (st : DroidState) :
  negb (enabled st) || B64.leb (flash_rate_hz st) B64.zero = false ->
  let d := B64.div (B64.div B64.one (flash_rate_hz st)) B64.two in
  apply_state (self, st) = (Ok tt, ({| led := LED_blink d d (led self) |}, st)).
Proof.
  intros H d. unfold apply_state, bind, gets. cbn [fst snd].
  rewrite H.
  apply orb_false_elim in H as [_ H].
  unfold lift, py_truediv.
  rewrite (leb_zero_false_not_zero _ H). reflexivity.
Qed.

(** [0 < r] excludes [r <= 0]: the guard of [apply_state] is not taken. *)
Lemma ltb_zero_leb_false (r : float) :
  B64.ltb B64.zero r = true -> B64.leb r B64.zero = false.
Proof. destruct r as [s|s| |s m e]; try discriminate; destruct s; easy. Qed.

(** [apply_state] returns normally on every snapshot: the division is
    reached only with a divisor that is not a zero. *)
Lemma apply_state_returns (o : objs) : fst (apply_state o) = Ok tt.
Proof.
  destruct o as [self st].
  destruct (negb (enabled st) || B64.leb (flash_rate_hz st) B64.zero) eqn:G.
  - now rewrite apply_state_off_path.
  - now rewrite apply_state_blink_path.
Qed.

(** The division of the source does raise on a zero divisor. *)
Lemma py_truediv_by_zero (x : float) (s : bool) :
  py_truediv x (S754_zero s) = Raise ZeroDivisionError.
Proof. reflexivity. Qed.

(** C3: with [enabled = false], [apply_state] commands the steady OFF
    state whatever the rate is (NaN and infinities included). *)
Theorem apply_state_disabled_off (self : LEDController) (st : DroidState) :
  enabled st = false ->
  let out := apply_state (self, st) in
  fst out = Ok tt /\ mode (led (fst (snd out))) = STEADY_OFF.
Proof.
  intros He out. subst out.
  rewrite apply_state_off_path by now rewrite He.
  split; reflexivity.
Qed.

Lemma apply_state_disabled_off_witness :
  let st := {| enabled := false; flash_rate_hz := B64.nan |} in
  let self := {| led := LED_blink B64.one B64.one (LED_new 17) |} in
  enabled st = false /\
  mode (led (fst (snd (apply_state (self, st))))) = STEADY_OFF.
Proof.
  split; [reflexivity|].
  exact (proj2 (apply_state_disabled_off
                  {| led := LED_blink B64.one B64.one (LED_new 17) |}
                  {| enabled := false; flash_rate_hz := B64.nan |} eq_refl)).
Defined.

(** C4: with [enabled = true] and a rate [r <= 0] (0.0 and -0.0 included),
    [apply_state] returns normally with the output steady OFF and no blink
    started: the guard returns before [1.0 / r], which would raise
    [ZeroDivisionError] on a zero rate, is evaluated. *)
Theorem apply_state_nonpositive_off (self : LEDController) (st : DroidState) :
  enabled st = true ->
  B64.leb (flash_rate_hz st) B64.zero = true ->
  apply_state (self, st) = (Ok tt, ({| led := LED_off (led self) |}, st)) /\
  mode (led (fst (snd (apply_state (self, st))))) = STEADY_OFF /\
  fst (apply_state (self, st)) <> Raise ZeroDivisionError.
Proof.
  intros He Hr.
  rewrite apply_state_off_path by (rewrite Hr; apply orb_true_r).
  repeat split; discriminate.
Qed.

Lemma apply_state_nonpositive_off_witness :
  let st := {| enabled := true; flash_rate_hz := B64.zero |} in
  (enabled st = true /\ B64.leb (flash_rate_hz st) B64.zero = true) /\
  py_truediv B64.one (flash_rate_hz st) = Raise ZeroDivisionError /\
  fst (apply_state (LEDController_init 17, st)) <> Raise ZeroDivisionError.
Proof.
  split; [split; reflexivity|].
  split; [reflexivity|].
  exact (proj2 (proj2 (apply_state_nonpositive_off (LEDController_init 17)
                  {| enabled := true; flash_rate_hz := B64.zero |}
                  eq_refl eq_refl))).
Defined.

(** [apply_state] hands its [state] argument back as it got it. *)
Lemma apply_state_frame (self : LEDController) (st : DroidState) :
  snd (snd (apply_state (self, st))) = st.
Proof.
  destruct (negb (enabled st) || B64.leb (flash_rate_hz st) B64.zero) eqn:G.
  - now rewrite apply_state_off_path.
  - now rewrite apply_state_blink_path.
Qed.

(** C8: [apply_state] only reads its [state] argument: the object it was
    given is unchanged, whatever [self] and the snapshot are. *)
Theorem apply_state_reads_only (self : LEDController) (st : DroidState) :
  snd (snd (apply_state (self, st))) = st /\
  enabled (snd (snd (apply_state (self, st)))) = enabled st /\
  flash_rate_hz (snd (snd (apply_state (self, st)))) = flash_rate_hz st.
Proof. rewrite apply_state_frame. repeat split. Qed.

(** C6: applying the same snapshot a second time leaves the output in the
    same mode with the same durations as applying it once (only the count
    of started blink threads moves on). *)
Theorem apply_state_idempotent (self : LEDController) (st : DroidState) :
  let once := snd (apply_state (self, st)) in
  let twice := snd (apply_state once) in
  snd once = st /\
  mode (led (fst twice)) = mode (led (fst once)).
Proof.
  intros once twice. subst twice once.
  destruct (negb (enabled st) || B64.leb (flash_rate_hz st) B64.zero) eqn:G.
  - rewrite (apply_state_off_path self st G). cbn [snd fst].
    rewrite (apply_state_off_path _ st G). split; reflexivity.
  - rewrite (apply_state_blink_path self st G). cbn [snd fst].
    rewrite (apply_state_blink_path _ st G). split; reflexivity.
Qed.

(* ===================================================================== *)
(** * Facts on binary64 comparisons and on [float] *)
(* ===================================================================== *)

(** A mantissa of [d] binary digits lies in [[2^(d-1), 2^d)]. *)
Lemma digits2_pos_bounds (m : positive) :
  2 ^ (Zpos (digits2_pos m) - 1) <= Zpos m < 2 ^ Zpos (digits2_pos m).
Proof.
  induction m as [m IH|m IH|]; cbn [digits2_pos].
  - rewrite Pos2Z.inj_succ.
    replace (Z.succ (Zpos (digits2_pos m)) - 1) with (Z.succ (Zpos (digits2_pos m) - 1)) by lia.
    rewrite !Z.pow_succ_r by lia. lia.
  - rewrite Pos2Z.inj_succ.
    replace (Z.succ (Zpos (digits2_pos m)) - 1) with (Z.succ (Zpos (digits2_pos m) - 1)) by lia.
    rewrite !Z.pow_succ_r by lia. lia.
  - cbn. lia.
Qed.

(** The mantissa and exponent ranges of a canonical binary64 number. *)
Lemma valid_finite_bounds (s : bool) (m : positive) (e : Z) :
  valid_binary B64.prec B64.emax (S754_finite s m e) = true ->
  -1074 <= e <= 971 /\ Zpos m < 2 ^ 53 /\ (-1074 < e -> 2 ^ 52 <= Zpos m).
Proof.
  cbn [valid_binary]. unfold bounded, canonical_mantissa, fexp, emin, B64.prec, B64.emax.
  intros H. apply andb_prop in H as [C B].
  apply Z.eqb_eq in C. apply Z.leb_le in B.
  pose proof (digits2_pos_bounds m) as [L U].
  set (d := Zpos (digits2_pos m)) in *.
  assert (Hd : 0 < d) by (subst d; lia).
  split; [lia|]. split.
  - assert (d <= 53) by lia.
    apply Z.lt_le_trans with (1 := U). apply Z.pow_le_mono_r; lia.
  - intros He. assert (d = 53) by lia.
    replace 52 with (d - 1) by lia. exact L.
Qed.

Lemma pos_pow_Z (p : positive) : Zpos (2 ^ p) = 2 ^ Zpos p.
Proof. apply Pos2Z.inj_pow. Qed.

(** The sign test [value < 0] against the rational value. *)
Lemma ltb_zero_spec (n : float) :
  B64.is_finite n = true ->
  if B64.ltb n B64.zero then (B64.to_Q n < 0)%Q else (0 <= B64.to_Q n)%Q.
Proof.
  destruct n as [s|s| |s m e]; cbn [B64.is_finite]; intros F;
    [apply Qle_refl|discriminate F|discriminate F|].
  destruct s; cbn [B64.ltb SFltb SFcompare B64.zero B64.to_Q];
    destruct e as [|p|p]; unfold Qlt, Qle; cbn [Qnum Qden].
  all: try (assert (0 < 2 ^ Zpos p) by (apply Z.pow_pos_nonneg; lia)).
  all: nia.
Qed.

(** The test [value > 50] against the rational value. *)
Lemma gtb_fifty_spec (n : float) :
  B64.is_real n = true ->
  if B64.gtb n B64.fifty then (50 < B64.to_Q n)%Q else (B64.to_Q n <= 50)%Q.
Proof.
  unfold B64.is_real. intros H. apply andb_prop in H as [F V].
  destruct n as [s|s| |s m e]; [|discriminate F|discriminate F|].
  - cbn [B64.gtb SFltb SFcompare B64.fifty B64.to_Q]. discriminate.
  - destruct (valid_finite_bounds _ _ _ V) as (He & Hm & Hn).
    destruct s.
    { cbn [B64.gtb SFltb SFcompare B64.fifty B64.to_Q].
      destruct e as [|p|p]; unfold Qle; cbn [Qnum Qden].
      all: try (assert (0 < 2 ^ Zpos p) by (apply Z.pow_pos_nonneg; lia)).
      all: nia. }
    unfold B64.gtb, SFltb, B64.fifty, SFcompare.
    destruct (Z.compare_spec (-47) e) as [E|E|E].
    + subst e. clear V F Hn He. rewrite Pos.compare_cont_spec.
      clear Hm.
      destruct (Pos.compare_spec 7036874417766400 m) as [C|C|C];
        cbn [Pos.switch_Eq B64.to_Q]; unfold Qlt, Qle; cbn [Qnum Qden];
        rewrite ?pos_pow_Z; change (2 ^ 47) with 140737488355328;
        change (50 * 140737488355328) with (Zpos 7036874417766400);
        rewrite Z.mul_1_r.
      * subst m. apply Z.le_refl.
      * now apply Pos2Z.pos_lt_pos.
      * now apply Pos2Z.pos_le_pos, Pos.lt_le_incl.
    + assert (M : 2 ^ 52 <= Zpos m) by (apply Hn; lia).
      cbn [B64.to_Q]. destruct e as [|p|p]; unfold Qlt; cbn [Qnum Qden].
      * lia.
      * assert (0 < 2 ^ Zpos p) by (apply Z.pow_pos_nonneg; lia).
        clear V F Hn Hm He E. change (2 ^ 52) with 4503599627370496 in M.
        nia.
      * rewrite pos_pow_Z.
        assert (2 ^ Zpos p <= 2 ^ 46) by (apply Z.pow_le_mono_r; lia). lia.
    + cbn [B64.to_Q]. destruct e as [|p|p]; try lia.
      unfold Qle; cbn [Qnum Qden]. rewrite pos_pow_Z.
      assert (2 ^ 48 <= 2 ^ Zpos p) by (apply Z.pow_le_mono_r; lia). lia.
Qed.

Lemma fifty_value : (B64.to_Q B64.fifty == 50)%Q.
Proof. reflexivity. Qed.

(** On real numbers the two clamping statements compute [max(0, min(50, n))]. *)
Lemma clamped_spec (n : float) :
  B64.is_real n = true ->
  B64.is_real (clamped n) = true /\
  (B64.to_Q (clamped n) == spec_clamp (B64.to_Q n))%Q.
Proof.
  intros R.
  assert (F : B64.is_finite n = true)
    by (unfold B64.is_real in R; now apply andb_prop in R).
  pose proof (ltb_zero_spec n F) as Z.
  pose proof (gtb_fifty_spec n R) as G.
  unfold clamped, spec_clamp.
  destruct (B64.ltb n B64.zero) eqn:L.
  - change (B64.gtb B64.zero B64.fifty) with false. cbn iota.
    split; [reflexivity|].
    change (B64.to_Q B64.zero) with 0%Q.
    rewrite Q.min_r by (apply Qlt_le_weak, Qlt_trans with (1 := Z); reflexivity).
    rewrite Q.max_l by (now apply Qlt_le_weak). reflexivity.
  - destruct (B64.gtb n B64.fifty) eqn:U.
    + split; [reflexivity|]. rewrite fifty_value.
      rewrite Q.min_l by (now apply Qlt_le_weak).
      rewrite Q.max_r by discriminate. reflexivity.
    + split; [exact R|].
      rewrite Q.min_r by exact G.
      rewrite Q.max_r by exact Z. reflexivity.
Qed.

(** Whatever is not NaN is clamped into [[0, 50]]. *)
Lemma clamped_in_range (f : float) :
  B64.is_nan f = false -> rate_in_range (clamped f) = true.
Proof.
  destruct f as [s|s| |s m e]; intros N; try discriminate N;
    try (destruct s; reflexivity).
  destruct s; [reflexivity|].
  unfold clamped.
  change (B64.ltb (S754_finite false m e) B64.zero) with false. cbn iota.
  unfold B64.gtb, SFltb, B64.fifty.
  cbn [SFcompare].
  destruct (Z.compare_spec (-47) e) as [E|E|E]; [subst e| |].
  - assert (A : Pos.compare_cont Eq m 7036874417766400 =
                 CompOpp (Pos.compare_cont Eq 7036874417766400 m))
      by (symmetry; apply (Pos.compare_cont_antisym _ _ Eq)).
    destruct (Pos.compare_cont Eq 7036874417766400 m) eqn:C; try reflexivity;
      unfold rate_in_range, B64.leb, SFleb, B64.zero, B64.fifty;
      cbn [SFcompare andb Z.compare Pos.compare];
      change (Pos.compare_cont Eq 47 47) with Eq; cbn iota;
      rewrite A; reflexivity.
  - reflexivity.
  - unfold rate_in_range, B64.leb, SFleb, B64.zero, B64.fifty; cbn [SFcompare andb].
    rewrite (proj2 (Z.compare_lt_iff e (-47)) E). reflexivity.
Qed.

(** [float] raises [TypeError] or [ValueError] only on absent or
    non-numeric values. *)
Lemma py_float_caught (p : string -> option float) (v : pyval) (x : exn) :
  py_float p v = Raise x ->
  existsb (exn_eqb x) [TypeError; ValueError] = true ->
  absent_or_non_numeric p v = true.
Proof.
  destruct v; cbn; intros H C; try reflexivity; try discriminate H.
  - unfold float_of_int in H. destruct (B64.of_Z z); try discriminate H.
    injection H as <-. discriminate C.
  - destruct (p s); [discriminate H|reflexivity].
Qed.

(* ===================================================================== *)
(** * The half period as [1 / (2 * r)] *)
(* ===================================================================== *)

(** Euclidean division of a multiple. *)
Lemma div_eucl_exact (a b : Z) : 0 < b -> Z.div_eucl (a * b) b = (a, 0).
Proof.
  intros Hb.
  pose proof (Z.div_mul a b ltac:(lia)) as D.
  pose proof (Z.mod_mul a b ltac:(lia)) as R.
  unfold Z.div, Z.modulo in D, R.
  destruct (Z.div_eucl (a * b) b) as [q r]. cbn in D, R. now subst.
Qed.
(** Dividing a normal double by 2.0 only lowers its exponent. *)
Lemma div_two_exact (s : bool) (m : positive) (e : Z) :
  Zpos (digits2_pos m) = 53 -> -1072 <= e <= 972 ->
  B64.div (S754_finite s m e) B64.two = S754_finite s m (e - 1).
Proof.
  intros D He.
  unfold B64.div, B64.two, SFdiv, SFdiv_core_binary.
  cbn [Zdigits2]. rewrite D.
  change (Z.pos (digits2_pos 4503599627370496)) with 53.
  unfold fexp, emin, B64.prec, B64.emax.
  replace (Z.min (Z.max (53 + e - (53 + -51) - 53) (3 - 1024 - 53)) (e - -51))
    with (e - 2) by lia.
  replace (e - -51 - (e - 2)) with 53 by lia.
  rewrite Z.shiftl_mul_pow2 by lia.
  replace (Z.pos m * 2 ^ 53) with (Z.pos m~0 * 4503599627370496) by lia.
  rewrite div_eucl_exact by lia.
  change (new_location 4503599627370496 0) with loc_Exact.
  unfold binary_round_aux, shr_fexp.
  cbn [Zdigits2 digits2_pos shr_record_of_loc]. rewrite Pos2Z.inj_succ, D.
  unfold fexp, emin.
  replace (Z.max (Z.succ 53 + (e - 2) - 53) (3 - 1024 - 53) - (e - 2)) with 1 by lia.
  cbn [shr iter_pos shr_1 shr_m loc_of_shr_record round_nearest_even orb].
  cbn [Zdigits2 shr_record_of_loc]. rewrite D.
  replace (Z.max (53 + (e - 2 + 1) - 53) (3 - 1024 - 53) - (e - 2 + 1)) with 0 by lia.
  cbn [shr shr_m].
  replace (e - 2 + 1) with (e - 1) by lia.
  replace (e - 1 <=? 1024 - 53) with true by (symmetry; apply Z.leb_le; lia).
  now destruct s.
Qed.

(** The number of digits is determined by the enclosing powers of two. *)
Lemma digits2_pos_unique (p : positive) (k : Z) :
  2 ^ (k - 1) <= Zpos p < 2 ^ k -> Zpos (digits2_pos p) = k.
Proof.
  intros [L U]. pose proof (digits2_pos_bounds p) as [L' U'].
  set (d := Zpos (digits2_pos p)) in *.
  assert (0 < d) by (subst d; lia).
  assert (0 < k).
  { destruct (Z_lt_le_dec 0 k) as [|N]; [assumption|].
    rewrite (Z.pow_neg_r 2 (k - 1)) in L by lia.
    destruct (Z.eq_dec k 0) as [->|]; [cbn in U; lia|].
    rewrite (Z.pow_neg_r 2 k) in U by lia. lia. }
  destruct (Z_lt_le_dec d k) as [A|A].
  - assert (2 ^ d <= 2 ^ (k - 1)) by (apply Z.pow_le_mono_r; lia). lia.
  - destruct (Z_lt_le_dec k d) as [B|B]; [|lia].
    assert (2 ^ k <= 2 ^ (d - 1)) by (apply Z.pow_le_mono_r; lia). lia.
Qed.

(** Multiplying a normal double by 2.0 only raises its exponent. *)
Lemma mul_two_exact (s : bool) (m : positive) (e : Z) :
  Zpos (digits2_pos m) = 53 -> -1074 <= e <= 970 ->
  B64.mul B64.two (S754_finite s m e) = S754_finite s m (e + 1).
Proof.
  intros D He.
  unfold B64.mul, B64.two, SFmul.
  cbn [Pos.mul xorb].
  unfold binary_round_aux, shr_fexp.
  cbn [Zdigits2 digits2_pos shr_record_of_loc].
  rewrite !Pos2Z.inj_succ, D.
  unfold fexp, emin, B64.prec, B64.emax.
  match goal with |- context [shr _ ?x ?n] =>
    replace n with 52 by lia end.
  cbn [shr iter_pos shr_1 shr_m loc_of_shr_record round_nearest_even orb].
  cbn [Zdigits2 shr_record_of_loc]. rewrite D.
  match goal with |- context [shr _ ?x ?n] =>
    replace n with 0 by lia end.
  cbn [shr shr_m].
  replace (-51 + e + 52) with (e + 1) by lia.
  replace (e + 1 <=? 1024 - 53) with true by (symmetry; apply Z.leb_le; lia).
  reflexivity.
Qed.

(** Division of 1.0 by a positive normal number, before rounding. *)
Lemma div_one_core (m : positive) (e : Z) :
  Zpos (digits2_pos m) = 53 -> e <= 969 ->
  B64.div B64.one (S754_finite false m e) =
  binary_round_aux B64.prec B64.emax false
    (2 ^ 105 / Zpos m) (-105 - e)
    (new_location (Zpos m) (2 ^ 105 mod Zpos m)).
Proof.
  intros D He.
  unfold B64.div, B64.one, SFdiv, SFdiv_core_binary.
  cbn [Zdigits2 xorb]. rewrite D.
  change (Z.pos (digits2_pos 4503599627370496)) with 53.
  unfold fexp, emin, B64.prec, B64.emax.
  replace (Z.min (Z.max (53 + -52 - (53 + e) - 53) (3 - 1024 - 53)) (-52 - e))
    with (-105 - e) by lia.
  replace (-52 - e - (-105 - e)) with 53 by lia.
  rewrite Z.shiftl_mul_pow2 by lia.
  change (Z.pos 4503599627370496 * 2 ^ 53) with (2 ^ 105).
  unfold Z.div, Z.modulo.
  destruct (Z.div_eucl (2 ^ 105) (Z.pos m)) as [q r]. reflexivity.
Qed.

(** The quotient of 2^105 by a 53-bit mantissa has 53 or 54 bits. *)
Lemma quotient_bounds (m : positive) :
  Zpos (digits2_pos m) = 53 -> 2 ^ 52 <= 2 ^ 105 / Zpos m <= 2 ^ 53.
Proof.
  intros D. pose proof (digits2_pos_bounds m) as [L U]. rewrite D in L, U.
  change (53 - 1) with 52 in L. split.
  - apply Z.div_le_lower_bound; [lia|].
    change (2 ^ 105) with (2 ^ 53 * 2 ^ 52). nia.
  - apply Z.div_le_upper_bound; [lia|].
    change (2 ^ 105) with (2 ^ 52 * 2 ^ 53). nia.
Qed.

(** Round trips between a rounding location and its shift record. *)
Lemma shr_record_of_loc_m (m : Z) (l : location) :
  shr_m (shr_record_of_loc m l) = m.
Proof. now destruct l as [|[]]. Qed.

Lemma loc_of_shr_record_of_loc (m : Z) (l : location) :
  loc_of_shr_record (shr_record_of_loc m l) = l.
Proof. now destruct l as [|[]]. Qed.

(** A mantissa of 53 digits is left alone by the alignment. *)
Lemma shr_fexp_normal (p : positive) (E : Z) (l : location) :
  Zpos (digits2_pos p) = 53 -> -1074 <= E ->
  shr_fexp B64.prec B64.emax (Zpos p) E l = (shr_record_of_loc (Zpos p) l, E).
Proof.
  intros D HE. unfold shr_fexp, fexp, emin, B64.prec, B64.emax.
  cbn [Zdigits2]. rewrite D.
  replace (Z.max (53 + E - 53) (3 - 1024 - 53) - E) with 0 by lia.
  reflexivity.
Qed.

(** The mantissa 2^53 is aligned to 2^52 one exponent up. *)
Lemma shr_fexp_carry (E : Z) (l : location) :
  -1075 <= E ->
  let '(mrs, e) := shr_fexp B64.prec B64.emax 9007199254740992 E l in
  shr_m mrs = 4503599627370496 /\ e = E + 1 /\
  round_nearest_even (shr_m mrs) (loc_of_shr_record mrs) = 4503599627370496.
Proof.
  intros HE. unfold shr_fexp, fexp, emin, B64.prec, B64.emax.
  change (Zdigits2 9007199254740992) with 54.
  replace (Z.max (54 + E - 53) (3 - 1024 - 53) - E) with 1 by lia.
  destruct l as [|[]]; cbn; repeat split.
Qed.

(** The last step of the rounding: the mantissa lies in [[2^52, 2^53]]. *)
Lemma finish_round (s : bool) (p : positive) :
  2 ^ 52 <= Zpos p <= 2 ^ 53 ->
  exists (m' : positive) (k : Z),
    Zpos (digits2_pos m') = 53 /\ 0 <= k <= 1 /\
    forall E : Z, -1074 <= E -> E + k <= 971 ->
      (let '(mrs, e) := shr_fexp B64.prec B64.emax (Zpos p) E loc_Exact in
       match shr_m mrs with
       | Z0 => S754_zero s
       | Zpos m => if e <=? B64.emax - B64.prec
                   then S754_finite s m e else S754_infinity s
       | Zneg _ => S754_nan
       end) = S754_finite s m' (E + k).
Proof.
  intros [L U].
  destruct (Z_lt_le_dec (Zpos p) (2 ^ 53)) as [A|A].
  - assert (D : Zpos (digits2_pos p) = 53)
      by (apply digits2_pos_unique; change (53 - 1) with 52; lia).
    exists p, 0. split; [exact D|]. split; [lia|].
    intros E HE HU. rewrite (shr_fexp_normal p E loc_Exact D HE).
    cbn [shr_m shr_record_of_loc]. rewrite Z.add_0_r.
    unfold B64.emax, B64.prec.
    replace (E <=? 1024 - 53) with true by (symmetry; apply Z.leb_le; lia).
    reflexivity.
  - assert (P : p = 9007199254740992%positive)
      by (apply Pos2Z.inj; change (Z.pos 9007199254740992) with (2 ^ 53); lia).
    subst p. exists 4503599627370496%positive, 1.
    split; [reflexivity|]. split; [lia|].
    intros E HE HU.
    pose proof (shr_fexp_carry E loc_Exact ltac:(lia)) as C.
    destruct (shr_fexp B64.prec B64.emax 9007199254740992 E loc_Exact) as [mrs e].
    destruct C as (-> & -> & _).
    unfold B64.emax, B64.prec.
    replace (E + 1 <=? 1024 - 53) with true by (symmetry; apply Z.leb_le; lia).
    reflexivity.
Qed.

(** Rounding to nearest keeps the mantissa or adds one to it. *)
Lemma round_nearest_even_bounds (m : Z) (l : location) :
  m <= round_nearest_even m l <= m + 1.
Proof.
  destruct l as [|[]]; cbn [round_nearest_even];
    try destruct (Z.even m); lia.
Qed.

(** Rounding a 53- or 54-bit quotient in the normal range: the mantissa
    and the exponent increment do not depend on the exponent. *)
Lemma round_normal (s : bool) (p : positive) (l : location) :
  2 ^ 52 <= Zpos p <= 2 ^ 53 ->
  exists (m' : positive) (k : Z),
    Zpos (digits2_pos m') = 53 /\ 0 <= k <= 1 /\
    forall E : Z, -1074 <= E -> E + k <= 971 ->
      binary_round_aux B64.prec B64.emax s (Zpos p) E l = S754_finite s m' (E + k).
Proof.
  intros [L U].
  destruct (Z_lt_le_dec (Zpos p) (2 ^ 53)) as [A|A].
  - assert (D : Zpos (digits2_pos p) = 53)
      by (apply digits2_pos_unique; change (53 - 1) with 52; lia).
    pose proof (round_nearest_even_bounds (Zpos p) l) as B.
    destruct (round_nearest_even (Zpos p) l) as [|p1|p1] eqn:R; try lia.
    destruct (finish_round s p1 ltac:(lia)) as (m' & k & Dm & Hk & F).
    exists m', k. split; [exact Dm|]. split; [exact Hk|].
    intros E HE HU. unfold binary_round_aux.
    rewrite (shr_fexp_normal p E l D HE).
    rewrite shr_record_of_loc_m, loc_of_shr_record_of_loc, R.
    exact (F E HE HU).
  - assert (P : p = 9007199254740992%positive)
      by (apply Pos2Z.inj; change (Z.pos 9007199254740992) with (2 ^ 53); lia).
    subst p. exists 4503599627370496%positive, 1.
    split; [reflexivity|]. split; [lia|].
    intros E HE HU. unfold binary_round_aux.
    pose proof (shr_fexp_carry E l ltac:(lia)) as C.
    destruct (shr_fexp B64.prec B64.emax 9007199254740992 E l) as [mrs e].
    destruct C as (_ & -> & ->).
    rewrite (shr_fexp_normal 4503599627370496 (E + 1) loc_Exact eq_refl ltac:(lia)).
    cbn [shr_m shr_record_of_loc]. unfold B64.emax, B64.prec.
    replace (E + 1 <=? 1024 - 53) with true by (symmetry; apply Z.leb_le; lia).
    reflexivity.
Qed.

(** In binary64, for every positive normal rate [r] below 2^1020, halving
    the period [1 / r] gives the same double as [1 / (2 * r)]. *)
Lemma half_period_is_inverse_of_double (r : float) :
  normal_rate r = true ->
  B64.div (B64.div B64.one r) B64.two = B64.div B64.one (B64.mul B64.two r).
Proof.
  destruct r as [s|s| |[] m e]; try discriminate. cbn [normal_rate].
  intros N. apply andb_prop in N as [N He2]. apply andb_prop in N as [D He1].
  apply Z.eqb_eq in D. apply Z.leb_le in He1, He2.
  rewrite (mul_two_exact false m e D ltac:(lia)).
  rewrite (div_one_core m e D ltac:(lia)).
  rewrite (div_one_core m (e + 1) D ltac:(lia)).
  pose proof (quotient_bounds m D) as Q.
  destruct (2 ^ 105 / Zpos m) as [|q|q] eqn:Eq; try lia.
  destruct (round_normal false q (new_location (Zpos m) (2 ^ 105 mod Zpos m)) Q)
    as (m' & k & Dm & Hk & F).
  rewrite (F (-105 - e) ltac:(lia) ltac:(lia)).
  rewrite (F (-105 - (e + 1)) ltac:(lia) ltac:(lia)).
  rewrite (div_two_exact false m' (-105 - e + k) Dm ltac:(lia)).
  f_equal. lia.
Qed.

(** A normal rate is positive. *)
Lemma normal_rate_positive (r : float) :
  normal_rate r = true -> B64.ltb B64.zero r = true.
Proof. destruct r as [s|s| |[] m e]; try discriminate. reflexivity. Qed.

(** X16: with [enabled = true] and a positive normal rate [r] below 2^1020, the
    two durations that [apply_state] commands are the double [1 / (2 * r)]. *)
Lemma apply_state_blinking_normal_rate (self : LEDController) (st : DroidState) :
  enabled st = true ->
  normal_rate (flash_rate_hz st) = true ->
  let d := B64.div B64.one (B64.mul B64.two (flash_rate_hz st)) in
  mode (led (fst (snd (apply_state (self, st))))) = BLINKING d d.
Proof.
  intros He N d. subst d.
  rewrite apply_state_blink_path.
  - cbn [snd fst led LED_blink mode].
    now rewrite (half_period_is_inverse_of_double _ N).
  - rewrite He, (ltb_zero_leb_false _ (normal_rate_positive _ N)). reflexivity.
Qed.

(** Below the normal range the period overflows: for the subnormal rate
    2^-1024 the halved period is infinite, while [1 / (2 * r)] is 2^1023. *)
Lemma half_period_subnormal_rate :
  let r := S754_finite false 1125899906842624 (-1074) in
  B64.is_real r = true /\ rate_in_range r = true /\ normal_rate r = false /\
  B64.div (B64.div B64.one r) B64.two = B64.inf /\
  B64.div B64.one (B64.mul B64.two r) = S754_finite false 4503599627370496 971.
Proof. vm_compute. repeat split. Qed.

(** C1 (amended): with [enabled = true] and a rate [r > 0], [apply_state]
    returns normally and commands BLINKING with
    [on_time = off_time = period / 2] where [period = 1 / r], both
    divisions in binary64; whenever [r] is a normal double below 2^1020
    this duration is the double [1 / (2 * r)]. *)
Theorem apply_state_blinking (self : LEDController) (st : DroidState) :
  enabled st = true ->
  B64.ltb B64.zero (flash_rate_hz st) = true ->
  let period := B64.div B64.one (flash_rate_hz st) in
  let out := apply_state (self, st) in
  fst out = Ok tt /\
  mode (led (fst (snd out))) =
    BLINKING (B64.div period B64.two) (B64.div period B64.two) /\
  (normal_rate (flash_rate_hz st) = true ->
   B64.div period B64.two =
   B64.div B64.one (B64.mul B64.two (flash_rate_hz st))).
Proof.
  intros He Hr period out. subst out.
  rewrite apply_state_blink_path.
  - split; [reflexivity|]. split; [reflexivity|].
    intros N. subst period. now apply half_period_is_inverse_of_double.
  - rewrite He, (ltb_zero_leb_false _ Hr). reflexivity.
Qed.

(** Scenario B: enabled at 2 Hz, the output blinks 0.25 s on, 0.25 s off,
    and 0.25 is 1 / (2 * 2). *)
Lemma apply_state_blinking_witness :
  let st := {| enabled := true; flash_rate_hz := B64.two |} in
  let quarter := S754_finite false 4503599627370496 (-54) in
  (enabled st = true /\ B64.ltb B64.zero (flash_rate_hz st) = true /\
   normal_rate (flash_rate_hz st) = true) /\
  mode (led (fst (snd (apply_state (LEDController_init 17, st))))) =
    BLINKING quarter quarter /\
  quarter = B64.div B64.one (B64.mul B64.two (flash_rate_hz st)) /\
  B64.to_Q quarter == 1 / (2 * B64.to_Q (flash_rate_hz st)).
Proof.
  split; [repeat split; reflexivity|].
  destruct (apply_state_blinking (LEDController_init 17)
              {| enabled := true; flash_rate_hz := B64.two |}
              eq_refl eq_refl) as (_ & M & N).
  split; [exact M|]. split; [exact (N eq_refl)|reflexivity].
Defined.

(** The claim C1 as first stated, with [1 / (2 * r)] for every [r > 0],
    fails at the subnormal rate [r = 2^-1024], a rate in [[0, 50]]:
    [1 / (2 * r)] is the finite double 2^1023, exactly, but [1 / r]
    overflows, so the halved period that [apply_state] commands is
    infinite. *)
Lemma apply_state_blinking_counterexample :
  let r := S754_finite false 1125899906842624 (-1074) in
  let st := {| enabled := true; flash_rate_hz := r |} in
  let d := B64.div B64.one (B64.mul B64.two r) in
  (enabled st = true /\ B64.ltb B64.zero (flash_rate_hz st) = true) /\
  rate_in_range r = true /\
  (B64.is_real d = true /\ B64.to_Q d == 1 / (2 * B64.to_Q r)) /\
  mode (led (fst (snd (apply_state (LEDController_init 17, st))))) =
    BLINKING B64.inf B64.inf /\
  mode (led (fst (snd (apply_state (LEDController_init 17, st))))) <>
    BLINKING d d.
Proof.
  cbv zeta. split; [split; reflexivity|]. split; [reflexivity|].
  split; [split; vm_compute; reflexivity|].
  split; [vm_compute; reflexivity|].
  vm_compute. discriminate.
Qed.

(* ===================================================================== *)
(** * The event handlers *)
(* ===================================================================== *)

Lemma update_hardware_run (w : World) :
  fst (update_hardware w) = Ok tt /\ state (snd (update_hardware w)) = state w.
Proof.
  unfold update_hardware, zoom.
  pose proof (apply_state_returns (led_controller w, state w)) as R.
  pose proof (apply_state_frame (led_controller w) (state w)) as F.
  destruct (apply_state (led_controller w, state w)) as [r o].
  cbn in *. now subst.
Qed.

Lemma store_then_update (f : World -> World) (w : World) :
  let out := (modify f ;; update_hardware)%py w in
  fst out = Ok tt /\ state (snd out) = state (f w).
Proof.
  unfold bind, modify. cbn.
  destruct (update_hardware_run (f w)) as [R F].
  destruct (update_hardware (f w)) as [r w']. cbn in *. now subst.
Qed.

Lemma on_toggle_change_run (e : event) (w : World) :
  let out := on_toggle_change e w in
  fst out = Ok tt /\
  same_state_as (py_bool (value e)) (flash_rate_hz (state w)) (snd out).
Proof.
  unfold on_toggle_change, set_enabled.
  destruct (store_then_update
    (fun w => {| state := {| enabled := py_bool (value e);
                             flash_rate_hz := flash_rate_hz (state w) |};
                 led_controller := led_controller w |}) w) as [R F].
  cbn zeta in *. split; [exact R|]. unfold same_state_as. now rewrite F.
Qed.

Section HandlerProperties.

Variable str_to_float : string -> option float.

(** The conversion succeeded: the clamped value is stored and the
    hardware updated. *)
Lemma on_rate_change_converted (e : event) (w : World) (f : float) :
  py_float str_to_float (value e) = Ok f ->
  let out := on_rate_change str_to_float e w in
  fst out = Ok tt /\ same_state_as (enabled (state w)) (clamped f) (snd out).
Proof.
  intros H.
  assert (E : on_rate_change str_to_float e w =
              (set_flash_rate_hz (clamped f) ;; update_hardware)%py w).
  { unfold on_rate_change, bind at 1, try_except.
    destruct (value e) eqn:V; try discriminate H;
      unfold lift; rewrite H; reflexivity. }
  cbn zeta. rewrite E. unfold set_flash_rate_hz.
  destruct (store_then_update
    (fun w => {| state := {| enabled := enabled (state w);
                             flash_rate_hz := clamped f |};
                 led_controller := led_controller w |}) w) as [R F].
  cbn zeta in *. split; [exact R|]. unfold same_state_as. now rewrite F.
Qed.

(** The value was absent, or [float] raised [TypeError] or [ValueError]:
    0.0 is stored. *)
Lemma on_rate_change_defaulted (e : event) (w : World) :
  absent_or_non_numeric str_to_float (value e) = true ->
  let out := on_rate_change str_to_float e w in
  fst out = Ok tt /\ same_state_as (enabled (state w)) B64.zero (snd out).
Proof.
  intros H.
  assert (E : on_rate_change str_to_float e w =
              (set_flash_rate_hz B64.zero ;; update_hardware)%py w).
  { unfold on_rate_change, bind at 1, try_except.
    destruct (value e) eqn:V; try discriminate H; try reflexivity.
    cbn in H |- *. destruct (str_to_float s); [discriminate H|reflexivity]. }
  cbn zeta. rewrite E. unfold set_flash_rate_hz.
  destruct (store_then_update
    (fun w => {| state := {| enabled := enabled (state w);
                             flash_rate_hz := B64.zero |};
                 led_controller := led_controller w |}) w) as [R F].
  cbn zeta in *. split; [exact R|]. unfold same_state_as. now rewrite F.
Qed.

(** [float] raised an exception the handler does not catch: it reaches
    the caller and the store is as it was. *)
Lemma on_rate_change_uncaught (e : event) (w : World) (x : exn) :
  py_float str_to_float (value e) = Raise x ->
  existsb (exn_eqb x) [TypeError; ValueError] = false ->
  on_rate_change str_to_float e w = (Raise x, w).
Proof.
  intros H C.
  unfold on_rate_change, bind, try_except.
  destruct (value e) eqn:V; try (cbn in H; injection H as <-; discriminate C);
    unfold lift; rewrite H, C; reflexivity.
Qed.

(** C2: when [float(e.value)] is a real number [n], the handler returns
    normally and the rate it stores is exactly [max(0, min(50, n))]. *)
Theorem on_rate_change_clamps (e : event) (w : World) (n : float) :
  py_float str_to_float (value e) = Ok n ->
  B64.is_real n = true ->
  let out := on_rate_change str_to_float e w in
  fst out = Ok tt /\
  B64.is_real (rate_of (snd out)) = true /\
  (B64.to_Q (rate_of (snd out)) == spec_clamp (B64.to_Q n))%Q.
Proof.
  intros P R out.
  destruct (on_rate_change_converted e w n P) as (K & _ & S).
  destruct (clamped_spec n R) as [V Q].
  fold out in K, S. unfold rate_of. rewrite S. auto.
Qed.

(** On an absent ([None]) or non-numeric value the handler returns
    normally, no exception reaches the caller, and the stored rate is 0. *)
Theorem on_rate_change_defaults_to_zero (e : event) (w : World) :
  absent_or_non_numeric str_to_float (value e) = true ->
  let out := on_rate_change str_to_float e w in
  fst out = Ok tt /\ rate_of (snd out) = B64.zero.
Proof.
  intros A out.
  destruct (on_rate_change_defaulted e w A) as (K & _ & S).
  split; assumption.
Qed.

(** C9: when [float(e.value)] is NaN, both clamp tests are false on it and
    NaN itself is stored as the rate. *)
Theorem on_rate_change_stores_nan (e : event) (w : World) :
  py_float str_to_float (value e) = Ok B64.nan ->
  B64.ltb B64.nan B64.zero = false /\
  B64.gtb B64.nan B64.fifty = false /\
  rate_of (snd (on_rate_change str_to_float e w)) = B64.nan.
Proof.
  intros P.
  destruct (on_rate_change_converted e w B64.nan P) as (_ & _ & S).
  repeat split. exact S.
Qed.

(** The stored rate stays in [[0, 50]] across [on_rate_change] whenever
    the converted value is not NaN. *)
Lemma on_rate_change_keeps_range (e : event) (w : World) :
  rate_in_range (rate_of w) = true ->
  py_float str_to_float (value e) <> Ok B64.nan ->
  rate_in_range (rate_of (snd (on_rate_change str_to_float e w))) = true.
Proof.
  intros I N. unfold rate_of in *.
  destruct (py_float str_to_float (value e)) as [f|x] eqn:P.
  - destruct (on_rate_change_converted e w f P) as (_ & _ & S).
    rewrite S. apply clamped_in_range.
    destruct f; try reflexivity. now elim N.
  - destruct (existsb (exn_eqb x) [TypeError; ValueError]) eqn:C.
    + pose proof (py_float_caught _ _ _ P C) as A.
      destruct (on_rate_change_defaulted e w A) as (_ & _ & S).
      rewrite S. reflexivity.
    + rewrite (on_rate_change_uncaught e w x P C). exact I.
Qed.

(** C10: [on_toggle_change] leaves [flash_rate_hz] as it was, and
    [on_rate_change] leaves [enabled] as it was, for every event value
    (also when the conversion raises to the caller). *)
Theorem handlers_cross_field_frame (e : event) (w : World) :
  flash_rate_hz (state (snd (on_toggle_change e w))) = flash_rate_hz (state w) /\
  enabled (state (snd (on_rate_change str_to_float e w))) = enabled (state w).
Proof.
  split.
  - now destruct (on_toggle_change_run e w) as (_ & _ & S).
  - destruct (py_float str_to_float (value e)) as [f|x] eqn:P.
    + now destruct (on_rate_change_converted e w f P) as (_ & S & _).
    + destruct (existsb (exn_eqb x) [TypeError; ValueError]) eqn:C.
      * pose proof (py_float_caught _ _ _ P C) as A.
        now destruct (on_rate_change_defaulted e w A) as (_ & S & _).
      * now rewrite (on_rate_change_uncaught e w x P C).
Qed.

End HandlerProperties.

(* ===================================================================== *)
(** * The handlers on concrete events *)
(* ===================================================================== *)

(** Scenario D: the text "75" is stored as 50. *)
Lemma on_rate_change_clamps_witness :
  let e := {| value := PyStr "75" |} in
  let n := S754_finite false 5277655813324800 (-46) in
  (py_float float_literal (value e) = Ok n /\ B64.is_real n = true) /\
  (B64.to_Q (rate_of (snd (on_rate_change float_literal e World_init))) == 50)%Q.
Proof.
  split; [split; vm_compute; reflexivity|].
  destruct (on_rate_change_clamps float_literal {| value := PyStr "75" |}
              World_init (S754_finite false 5277655813324800 (-46))
              ltac:(vm_compute; reflexivity) ltac:(vm_compute; reflexivity))
    as (_ & _ & Q).
  cbv zeta. rewrite Q. vm_compute. reflexivity.
Defined.

(** Scenario C: the text "abc" is stored as 0. *)
Lemma on_rate_change_defaults_to_zero_witness :
  let e := {| value := PyStr "abc" |} in
  absent_or_non_numeric float_literal (value e) = true /\
  fst (on_rate_change float_literal e World_init) = Ok tt /\
  rate_of (snd (on_rate_change float_literal e World_init)) = B64.zero.
Proof.
  split; [vm_compute; reflexivity|].
  exact (on_rate_change_defaults_to_zero float_literal
           {| value := PyStr "abc" |} World_init
           ltac:(vm_compute; reflexivity)).
Defined.

Lemma on_rate_change_stores_nan_witness :
  let e := {| value := PyStr "nan" |} in
  py_float float_literal (value e) = Ok B64.nan /\
  rate_of (snd (on_rate_change float_literal e World_init)) = B64.nan.
Proof.
  split; [vm_compute; reflexivity|].
  exact (proj2 (proj2 (on_rate_change_stores_nan float_literal
           {| value := PyStr "nan" |} World_init
           ltac:(vm_compute; reflexivity)))).
Defined.

(** C5: the invariant "the stored rate lies in [[0, 50]]" holds after
    initialisation but not after every [on_rate_change]: a NaN (the float
    itself, or the text "nan") passes both clamp tests and is stored,
    and an enabled output is then told to blink with NaN durations. *)
Theorem on_rate_change_nan_leaves_range :
  let by_float := on_rate_change float_literal {| value := PyFloat B64.nan |} World_init in
  let by_text := on_rate_change float_literal {| value := PyStr "nan" |} World_init in
  let enabled_world := snd (on_toggle_change {| value := PyBool true |} World_init) in
  let then_nan := on_rate_change float_literal {| value := PyFloat B64.nan |} enabled_world in
  rate_in_range (rate_of World_init) = true /\
  fst by_float = Ok tt /\
  rate_of (snd by_float) = B64.nan /\
  rate_in_range (rate_of (snd by_float)) = false /\
  rate_in_range (rate_of (snd by_text)) = false /\
  mode_of (snd then_nan) = BLINKING B64.nan B64.nan.
Proof. vm_compute. repeat split. Qed.

(** C7: the handler is not total: an integer too large for a double
    makes [float] raise [OverflowError], which
    [except (TypeError, ValueError)] does not catch; it reaches the
    caller, and the stored rate is the one from before. *)
Lemma on_rate_change_overflow_raises :
  on_rate_change float_literal {| value := PyInt (2 ^ 1024) |} World_init
  = (Raise OverflowError, World_init).
Proof. vm_compute. reflexivity. Qed.

(** Scenario A, Scenario B and Scenario E on the initial store. *)
Lemma scenario_A :
  mode_of (snd (update_hardware World_init)) = STEADY_OFF.
Proof. reflexivity. Qed.

Lemma scenario_B :
  let w1 := snd (on_toggle_change {| value := PyBool true |} World_init) in
  let w2 := snd (on_rate_change float_literal {| value := PyFloat B64.two |} w1) in
  mode_of w2 = BLINKING (S754_finite false 4503599627370496 (-54))
                        (S754_finite false 4503599627370496 (-54)).
Proof. vm_compute. reflexivity. Qed.

Lemma scenario_E :
  rate_of (snd (on_rate_change float_literal {| value := PyInt (-5) |} World_init))
  = B64.zero.
Proof. vm_compute. reflexivity. Qed.

(* ===================================================================== *)
(** * [float] on integers *)
(* ===================================================================== *)

(** One right shift halves a non-negative mantissa. *)
Lemma shr_1_m (mrs : shr_record) :
  0 <= shr_m mrs -> shr_m (shr_1 mrs) = shr_m mrs / 2.
Proof.
  destruct mrs as [m r s]. cbn [shr_m]. intros H.
  destruct m as [|[p|p|]|p]; cbn [shr_1 shr_m]; try lia.
  - reflexivity.
  - rewrite Pos2Z.inj_xI.
    apply (Z.div_unique (2 * Z.pos p + 1) 2 (Z.pos p) 1); lia.
  - rewrite Pos2Z.inj_xO.
    apply (Z.div_unique (2 * Z.pos p) 2 (Z.pos p) 0); lia.
  - reflexivity.
Qed.

(** [n] right shifts divide a non-negative mantissa by [2^n]. *)
Lemma iter_shr_1_m (n : positive) (mrs : shr_record) :
  0 <= shr_m mrs ->
  shr_m (iter_pos shr_1 n mrs) = shr_m mrs / 2 ^ Zpos n.
Proof.
  revert mrs. induction n as [n IH|n IH|]; intros mrs H; cbn [iter_pos].
  - assert (P : 0 < 2 ^ Z.pos n) by (apply Z.pow_pos_nonneg; lia).
    assert (H1 : 0 <= shr_m (shr_1 mrs))
      by (rewrite shr_1_m by assumption; apply Z.div_pos; lia).
    assert (H2 : 0 <= shr_m (iter_pos shr_1 n (shr_1 mrs)))
      by (rewrite IH by assumption; apply Z.div_pos; lia).
    rewrite IH, IH, shr_1_m by assumption.
    rewrite !Z.div_div by lia.
    assert (E : 2 ^ Z.pos n~1 = 2 * 2 ^ Z.pos n * 2 ^ Z.pos n).
    { replace (Z.pos n~1) with (1 + Z.pos n + Z.pos n) by lia.
      rewrite !Z.pow_add_r by lia; reflexivity. }
    rewrite E; try (f_equal; ring).
  - assert (P : 0 < 2 ^ Z.pos n) by (apply Z.pow_pos_nonneg; lia).
    assert (H2 : 0 <= shr_m (iter_pos shr_1 n mrs))
      by (rewrite IH by assumption; apply Z.div_pos; lia).
    rewrite IH, IH by assumption.
    rewrite !Z.div_div by lia.
    assert (E : 2 ^ Z.pos n~0 = 2 ^ Z.pos n * 2 ^ Z.pos n).
    { replace (Z.pos n~0) with (Z.pos n + Z.pos n) by lia.
      rewrite !Z.pow_add_r by lia; reflexivity. }
    rewrite E; try (f_equal; ring).
  - rewrite shr_1_m by assumption. reflexivity.
Qed.

(** Left shifts of a mantissa. *)
Lemma iter_xO_value (m k : positive) :
  Zpos (Pos.iter xO m k) = Zpos m * 2 ^ Zpos k.
Proof.
  induction k as [|k IH] using Pos.peano_ind.
  - cbn. lia.
  - rewrite Pos.iter_succ, Pos2Z.inj_xO, IH, Pos2Z.inj_succ, Z.pow_succ_r by lia.
    lia.
Qed.

(** Rounding leaves an exact 53-bit mantissa in range as it is. *)
Lemma binary_round_aux_exact (s : bool) (M : positive) (E : Z) :
  Zpos (digits2_pos M) = 53 -> -1074 <= E <= 971 ->
  binary_round_aux B64.prec B64.emax s (Zpos M) E loc_Exact = S754_finite s M E.
Proof.
  intros D HE. unfold binary_round_aux.
  rewrite (shr_fexp_normal M E loc_Exact D ltac:(lia)).
  cbn [shr_record_of_loc shr_m loc_of_shr_record round_nearest_even].
  rewrite (shr_fexp_normal M E loc_Exact D ltac:(lia)).
  cbn [shr_record_of_loc shr_m]. unfold B64.emax, B64.prec.
  replace (E <=? 1024 - 53) with true by (symmetry; apply Z.leb_le; lia).
  reflexivity.
Qed.

(** The last step of the rounding when the exponent may overflow. *)
Lemma finish_round_any (s : bool) (p : positive) :
  2 ^ 52 <= Zpos p <= 2 ^ 53 ->
  exists (m' : positive) (k : Z),
    Zpos (digits2_pos m') = 53 /\ 0 <= k <= 1 /\
    forall E : Z, -1074 <= E ->
      (let '(mrs, e) := shr_fexp B64.prec B64.emax (Zpos p) E loc_Exact in
       match shr_m mrs with
       | Z0 => S754_zero s
       | Zpos m => if e <=? B64.emax - B64.prec
                   then S754_finite s m e else S754_infinity s
       | Zneg _ => S754_nan
       end) = if E + k <=? 971 then S754_finite s m' (E + k) else S754_infinity s.
Proof.
  intros [L U].
  destruct (Z_lt_le_dec (Zpos p) (2 ^ 53)) as [A|A].
  - assert (D : Zpos (digits2_pos p) = 53)
      by (apply digits2_pos_unique; change (53 - 1) with 52; lia).
    exists p, 0. split; [exact D|]. split; [lia|].
    intros E HE. rewrite (shr_fexp_normal p E loc_Exact D HE).
    cbn [shr_m shr_record_of_loc]. rewrite Z.add_0_r. reflexivity.
  - assert (P : p = 9007199254740992%positive)
      by (apply Pos2Z.inj; change (Z.pos 9007199254740992) with (2 ^ 53); lia).
    subst p. exists 4503599627370496%positive, 1.
    split; [reflexivity|]. split; [lia|].
    intros E HE.
    pose proof (shr_fexp_carry E loc_Exact ltac:(lia)) as C.
    destruct (shr_fexp B64.prec B64.emax 9007199254740992 E loc_Exact) as [mrs e].
    destruct C as (-> & -> & _). reflexivity.
Qed.

(** [float] of an integer below 2^53 in magnitude: the exact value. *)
Lemma binary_round_small (s : bool) (p : positive) :
  Zpos p < 2 ^ 53 ->
  exists (M : positive) (E : Z),
    binary_round B64.prec B64.emax s p 0 = S754_finite s M E /\
    Zpos (digits2_pos M) = 53 /\ -52 <= E <= 0 /\
    Zpos M = Zpos p * 2 ^ (- E).
Proof.
  intros U. pose proof (digits2_pos_bounds p) as [L' U'].
  set (d := Zpos (digits2_pos p)) in *.
  assert (Hd : 1 <= d <= 53).
  { split; [subst d; lia|].
    destruct (Z_lt_le_dec 53 d) as [A|A]; [|assumption].
    assert (2 ^ 53 <= 2 ^ (d - 1)) by (apply Z.pow_le_mono_r; lia). lia. }
  unfold binary_round. fold d.
  replace (fexp B64.prec B64.emax (d + 0)) with (d - 53)
    by (unfold fexp, emin, B64.prec, B64.emax; lia).
  unfold shl_align.
  destruct (d - 53 - 0) as [|k|k] eqn:K; try lia.
  - exists p, 0. assert (D : d = 53) by lia.
    rewrite (binary_round_aux_exact s p 0 D ltac:(lia)).
    repeat split; try lia; try exact D.
  - assert (V : Zpos (Pos.iter xO p k) = Zpos p * 2 ^ Zpos k)
      by apply iter_xO_value.
    assert (Hk : Zpos k = 53 - d) by lia.
    assert (D : Zpos (digits2_pos (Pos.iter xO p k)) = 53).
    { apply digits2_pos_unique. rewrite V. change (53 - 1) with 52.
      assert (P : 0 < 2 ^ Zpos k) by (apply Z.pow_pos_nonneg; lia).
      assert (E1 : 2 ^ 52 = 2 ^ (d - 1) * 2 ^ Zpos k)
        by (rewrite <- Z.pow_add_r by lia; f_equal; lia).
      assert (E2 : 2 ^ 53 = 2 ^ d * 2 ^ Zpos k)
        by (rewrite <- Z.pow_add_r by lia; f_equal; lia).
      rewrite E1, E2. nia. }
    exists (Pos.iter xO p k), (d - 53).
    rewrite (binary_round_aux_exact s _ (d - 53) D ltac:(lia)).
    repeat split; try lia; try exact D.
    rewrite V. f_equal. f_equal. lia.
Qed.

(** [float] of an integer of more than 53 bits: a normal double with a
    positive exponent, or an infinity when the exponent overflows. *)
Lemma binary_round_large (s : bool) (p : positive) :
  2 ^ 53 <= Zpos p ->
  exists (m' : positive) (k : Z),
    0 <= k <= 1 /\
    binary_round B64.prec B64.emax s p 0 =
      if Zpos (digits2_pos p) - 53 + k <=? 971
      then S754_finite s m' (Zpos (digits2_pos p) - 53 + k)
      else S754_infinity s.
Proof.
  intros L. pose proof (digits2_pos_bounds p) as [L' U'].
  set (d := Zpos (digits2_pos p)) in *.
  assert (Hd : 53 < d).
  { destruct (Z_lt_le_dec 53 d) as [A|A]; [assumption|].
    assert (2 ^ d <= 2 ^ 53) by (apply Z.pow_le_mono_r; subst d; lia). lia. }
  unfold binary_round. fold d.
  replace (fexp B64.prec B64.emax (d + 0)) with (d - 53)
    by (unfold fexp, emin, B64.prec, B64.emax; lia).
  unfold shl_align.
  destruct (d - 53 - 0) as [|n|n] eqn:N; try lia.
  unfold binary_round_aux, shr_fexp at 1. cbn [Zdigits2]. fold d.
  replace (fexp B64.prec B64.emax (d + 0) - 0) with (Zpos n)
    by (unfold fexp, emin, B64.prec, B64.emax; lia).
  cbn [shr].
  set (mrs := iter_pos shr_1 n (shr_record_of_loc (Z.pos p) loc_Exact)).
  assert (V : shr_m mrs = Zpos p / 2 ^ Zpos n)
    by (subst mrs; rewrite iter_shr_1_m; cbn [shr_record_of_loc shr_m]; [reflexivity|lia]).
  assert (P : 0 < 2 ^ Zpos n) by (apply Z.pow_pos_nonneg; lia).
  assert (B : 2 ^ 52 <= shr_m mrs < 2 ^ 53).
  { rewrite V. split.
    - apply Z.div_le_lower_bound; [lia|].
      rewrite <- Z.pow_add_r by lia.
      replace (Zpos n + 52) with (d - 1) by lia. exact L'.
    - apply Z.div_lt_upper_bound; [lia|].
      rewrite <- Z.pow_add_r by lia.
      replace (Zpos n + 53) with d by lia. exact U'. }
  pose proof (round_nearest_even_bounds (shr_m mrs) (loc_of_shr_record mrs)) as R.
  destruct (round_nearest_even (shr_m mrs) (loc_of_shr_record mrs)) as [|p1|p1];
    try lia.
  destruct (finish_round_any s p1 ltac:(lia)) as (m' & k & _ & Hk & F).
  exists m', k. split; [exact Hk|].
  rewrite (F (0 + Zpos n) ltac:(lia)).
  replace (0 + Zpos n + k) with (d - 53 + k) by lia. reflexivity.
Qed.

(** [float(z)] is exact for an integer below 2^53 in magnitude. *)
Lemma float_of_int_exact (z : Z) :
  Z.abs z < 2 ^ 53 ->
  exists f : float,
    float_of_int z = Ok f /\ B64.is_real f = true /\
    (B64.to_Q f == inject_Z z)%Q.
Proof.
  intros H. unfold float_of_int, B64.of_Z, binary_normalize.
  assert (G : forall (s : bool) (p : positive), Zpos p < 2 ^ 53 ->
    exists f : float,
      binary_round B64.prec B64.emax s p 0 = f /\
      match f with S754_infinity _ => False | _ => True end /\
      B64.is_real f = true /\
      (B64.to_Q f == inject_Z (if s then Zneg p else Zpos p))%Q).
  { intros s p U.
    destruct (binary_round_small s p U) as (M & E & R & D & HE & V).
    exists (S754_finite s M E). split; [exact R|]. split; [exact I|]. split.
    - unfold B64.is_real. cbn [B64.is_finite valid_binary andb].
      unfold bounded, canonical_mantissa. rewrite D.
      unfold fexp, emin, B64.prec, B64.emax.
      apply andb_true_intro. split; [apply Z.eqb_eq|apply Z.leb_le]; lia.
    - cbn [B64.to_Q]. destruct E as [|k|k]; try lia.
      + cbn in V. unfold Qeq, inject_Z. cbn [Qnum Qden].
        destruct s; lia.
      + unfold Qeq, inject_Z. cbn [Qnum Qden]. rewrite pos_pow_Z.
        change (- Z.neg k) with (Zpos k) in V. destruct s; lia. }
  destruct z as [|p|p].
  - exists (S754_zero false). repeat split.
  - destruct (G false p ltac:(lia)) as (f & -> & NI & R & Q).
    exists f. split; [now destruct f|]. split; assumption.
  - destruct (G true p ltac:(lia)) as (f & -> & NI & R & Q).
    exists f. split; [now destruct f|]. split; assumption.
Qed.

(** [float(z)] beyond 53 bits: [OverflowError], or a normal double of the
    sign of [z] with a positive exponent; which one is decided by the
    size of [z] below 2^1023 and from 2^1024 on. *)
Lemma float_of_int_big (z : Z) :
  2 ^ 53 <= Z.abs z ->
  (float_of_int z = Raise OverflowError /\ 2 ^ 1023 <= Z.abs z) \/
  (exists (m : positive) (e : Z),
     float_of_int z = Ok (S754_finite (z <? 0) m e) /\ 1 <= e /\
     Z.abs z < 2 ^ 1024).
Proof.
  intros H. unfold float_of_int, B64.of_Z, binary_normalize.
  assert (G : forall (s : bool) (p : positive), 2 ^ 53 <= Zpos p ->
    (binary_round B64.prec B64.emax s p 0 = S754_infinity s /\
       2 ^ 1023 <= Zpos p) \/
    (exists (m : positive) (e : Z),
       binary_round B64.prec B64.emax s p 0 = S754_finite s m e /\ 1 <= e /\
       Zpos p < 2 ^ 1024)).
  { intros s p L.
    destruct (binary_round_large s p L) as (m' & k & Hk & R).
    pose proof (digits2_pos_bounds p) as [L' U'].
    set (d := Zpos (digits2_pos p)) in *.
    assert (Hd : 53 < d).
    { destruct (Z_lt_le_dec 53 d) as [A|A]; [assumption|].
      assert (2 ^ d <= 2 ^ 53) by (apply Z.pow_le_mono_r; subst d; lia). lia. }
    destruct (d - 53 + k <=? 971) eqn:C.
    - right. exists m', (d - 53 + k). split; [exact R|]. split; [lia|].
      apply Z.leb_le in C.
      assert (2 ^ d <= 2 ^ 1024) by (apply Z.pow_le_mono_r; lia). lia.
    - left. split; [exact R|]. apply Z.leb_gt in C.
      assert (2 ^ 1023 <= 2 ^ (d - 1)) by (apply Z.pow_le_mono_r; lia). lia. }
  destruct z as [|p|p].
  - cbn in H. lia.
  - destruct (G false p ltac:(lia)) as [[-> B]|(m & e & -> & He & B)].
    + left. split; [reflexivity|lia].
    + right. exists m, e. repeat split; [exact He|lia].
  - destruct (G true p ltac:(lia)) as [[-> B]|(m & e & -> & He & B)].
    + left. split; [reflexivity|lia].
    + right. exists m, e. repeat split; [exact He|lia].
Qed.

Section IntegerRates.

Variable str_to_float : string -> option float.

(** X12: An integer of at least 2^1024 in magnitude: [float] raises
    [OverflowError], the handler lets it through to the caller, and the
    store (state and output) is left as it was. *)
Theorem on_rate_change_int_overflow (z : Z) (w : World) :
  2 ^ 1024 <= Z.abs z ->
  on_rate_change str_to_float {| value := PyInt z |} w = (Raise OverflowError, w).
Proof.
  intros H. apply on_rate_change_uncaught; [|reflexivity].
  cbn [value py_float].
  destruct (float_of_int_big z) as [[R _]|(m & e & _ & _ & B)].
  - assert (2 ^ 53 <= 2 ^ 1024) by (apply Z.pow_le_mono_r; lia). lia.
  - exact R.
  - lia.
Qed.

(** X11: An integer below 2^1023 in magnitude never makes the handler raise,
    and the rate stored for it is a real number of the format, exactly
    [max(0, min(50, z))]. *)
Theorem on_rate_change_int_clamps (z : Z) (w : World) :
  Z.abs z < 2 ^ 1023 ->
  let out := on_rate_change str_to_float {| value := PyInt z |} w in
  fst out = Ok tt /\
  B64.is_real (rate_of (snd out)) = true /\
  (B64.to_Q (rate_of (snd out)) == spec_clamp (inject_Z z))%Q.
Proof.
  intros H out. subst out.
  destruct (Z_lt_le_dec (Z.abs z) (2 ^ 53)) as [S|L].
  - destruct (float_of_int_exact z S) as (f & P & R & Q).
    destruct (on_rate_change_converted str_to_float {| value := PyInt z |} w f P)
      as (K & _ & St).
    split; [exact K|]. unfold rate_of. rewrite St.
    destruct (clamped_spec f R) as [V C]. split; [exact V|].
    rewrite C. unfold spec_clamp. now rewrite Q.
  - destruct (float_of_int_big z L) as [[_ B]|(m & e & P & He & _)]; [lia|].
    destruct (on_rate_change_converted str_to_float {| value := PyInt z |} w _ P)
      as (K & _ & St).
    split; [exact K|]. unfold rate_of. rewrite St.
    unfold clamped, spec_clamp.
    destruct (Z.ltb_spec z 0) as [N|N].
    + change (B64.ltb (S754_finite true m e) B64.zero) with true. cbn iota.
      change (B64.gtb B64.zero B64.fifty) with false. cbn iota.
      split; [reflexivity|].
      change (B64.to_Q B64.zero) with 0%Q.
      assert (Zq : (inject_Z z <= 0)%Q) by (unfold Qle, inject_Z; cbn; lia).
      rewrite Q.min_r by (apply Qle_trans with (1 := Zq); discriminate).
      rewrite Q.max_l by exact Zq. reflexivity.
    + change (B64.ltb (S754_finite false m e) B64.zero) with false. cbn iota.
      assert (G : B64.gtb (S754_finite false m e) B64.fifty = true).
      { unfold B64.gtb, SFltb, B64.fifty. cbn [SFcompare].
        rewrite (proj2 (Z.compare_lt_iff (-47) e)) by lia. reflexivity. }
      rewrite G. split; [reflexivity|]. rewrite fifty_value.
      assert (Zq : (50 <= inject_Z z)%Q) by (unfold Qle, inject_Z; cbn; lia).
      rewrite Q.min_l by exact Zq.
      rewrite Q.max_r by discriminate. reflexivity.
Qed.

End IntegerRates.

(* ===================================================================== *)
(** * The handlers and the output *)
(* ===================================================================== *)

(** [update_hardware] on its two paths. *)
Lemma update_hardware_off_path (w : World) :
  negb (enabled (state w)) || B64.leb (rate_of w) B64.zero = true ->
  update_hardware w =
  (Ok tt, {| state := state w;
             led_controller := {| led := LED_off (led (led_controller w)) |} |}).
Proof.
  intros G. unfold update_hardware, zoom.
  now rewrite (apply_state_off_path _ _ G).
Qed.

Lemma update_hardware_blink_path (w : World) :
  negb (enabled (state w)) || B64.leb (rate_of w) B64.zero = false ->
  let d := B64.div (B64.div B64.one (rate_of w)) B64.two in
  update_hardware w =
  (Ok tt, {| state := state w;
             led_controller := {| led := LED_blink d d (led (led_controller w)) |} |}).
Proof.
  intros G d. unfold update_hardware, zoom.
  now rewrite (apply_state_blink_path _ _ G).
Qed.

(** The mode that [update_hardware] commands depends on the [state]
    object only. *)
Lemma update_hardware_mode_of_state (w1 w2 : World) :
  state w1 = state w2 ->
  mode_of (snd (update_hardware w1)) = mode_of (snd (update_hardware w2)).
Proof.
  intros S.
  destruct (negb (enabled (state w1)) || B64.leb (rate_of w1) B64.zero) eqn:G.
  - rewrite (update_hardware_off_path w1 G).
    unfold rate_of in G. rewrite S in G.
    now rewrite (update_hardware_off_path w2 G).
  - rewrite (update_hardware_blink_path w1 G).
    unfold rate_of in G |- *. rewrite S in G |- *.
    now rewrite (update_hardware_blink_path w2 G).
Qed.

(** After [update_hardware] the output is up to date. *)
Lemma update_hardware_in_sync (w : World) : in_sync (snd (update_hardware w)).
Proof.
  unfold in_sync. apply update_hardware_mode_of_state.
  apply update_hardware_run.
Qed.

(** The handlers as one store update followed by [update_hardware]. *)
Lemma on_toggle_change_unfold (e : event) (w : World) :
  on_toggle_change e w =
  update_hardware (snd (set_enabled (py_bool (value e)) w)).
Proof. reflexivity. Qed.

Section MoreHandlerProperties.

Variable str_to_float : string -> option float.

Lemma on_rate_change_unfold (e : event) (w : World) (f : float) :
  py_float str_to_float (value e) = Ok f ->
  on_rate_change str_to_float e w =
  update_hardware (snd (set_flash_rate_hz (clamped f) w)).
Proof.
  intros H. unfold on_rate_change, bind at 1, try_except.
  destruct (value e) eqn:V; try discriminate H;
    unfold lift; rewrite H; reflexivity.
Qed.

Lemma on_rate_change_default_unfold (e : event) (w : World) :
  absent_or_non_numeric str_to_float (value e) = true ->
  on_rate_change str_to_float e w =
  update_hardware (snd (set_flash_rate_hz B64.zero w)).
Proof.
  intros H. unfold on_rate_change, bind at 1, try_except.
  destruct (value e) eqn:V; try discriminate H; try reflexivity.
  cbn in H |- *. destruct (str_to_float s); [discriminate H|reflexivity].
Qed.

(** The three outcomes of [on_rate_change]; which one occurs depends on
    the event only, not on the store. *)
Lemma on_rate_change_cases (e : event) :
  (exists f, py_float str_to_float (value e) = Ok f /\
     forall w, on_rate_change str_to_float e w =
               update_hardware (snd (set_flash_rate_hz (clamped f) w))) \/
  (forall w, on_rate_change str_to_float e w =
             update_hardware (snd (set_flash_rate_hz B64.zero w))) \/
  (exists x, forall w, on_rate_change str_to_float e w = (Raise x, w)).
Proof.
  destruct (py_float str_to_float (value e)) as [f|x] eqn:P.
  - left. exists f. split; [reflexivity|].
    intros w. now apply on_rate_change_unfold.
  - destruct (existsb (exn_eqb x) [TypeError; ValueError]) eqn:C.
    + right; left. intros w. apply on_rate_change_default_unfold.
      exact (py_float_caught _ _ _ P C).
    + right; right. exists x. intros w. now apply on_rate_change_uncaught.
Qed.

(** Every handler leaves the output up to date with the state it leaves. *)
Lemma dispatch_in_sync (ev : ui_event) (w : World) :
  in_sync w -> in_sync (snd (dispatch str_to_float ev w)).
Proof.
  intros I. destruct ev as [e|e]; cbn [dispatch].
  - rewrite on_toggle_change_unfold. apply update_hardware_in_sync.
  - destruct (on_rate_change_cases e) as [(f & _ & E)|[E|(x & E)]];
      rewrite E; try apply update_hardware_in_sync. exact I.
Qed.

(** The output stays up to date along every run. *)
Lemma run_events_preserve_sync (evs : list ui_event) (w : World) :
  in_sync w -> in_sync (run_events str_to_float evs w).
Proof.
  revert w. induction evs as [|ev evs IH]; intros w I; cbn [run_events fold_left].
  - exact I.
  - apply IH. now apply dispatch_in_sync.
Qed.

(** X1: whatever events arrive after start-up, in whatever order and
    whether or not a handler raised, the output is in the mode that the
    stored state asks for by the test of [apply_state]: steady OFF when
    disabled or when [rate <= 0] holds, and otherwise (a NaN rate
    included, since [nan <= 0] is false) blinking with
    [(1 / rate) / 2] on and off. *)
Theorem reachable_output_follows_state (evs : list ui_event) :
  let w := run_events str_to_float evs World_init in
  let d := B64.div (B64.div B64.one (rate_of w)) B64.two in
  mode_of w =
    if negb (enabled (state w)) || B64.leb (rate_of w) B64.zero
    then STEADY_OFF else BLINKING d d.
Proof.
  intros w d.
  assert (I : in_sync w)
    by (apply run_events_preserve_sync; reflexivity).
  unfold in_sync in I. rewrite <- I.
  destruct (negb (enabled (state w)) || B64.leb (rate_of w) B64.zero) eqn:G.
  - now rewrite (update_hardware_off_path w G).
  - now rewrite (update_hardware_blink_path w G).
Qed.

(** X2: the stored rate stays in [[0, 50]] along a run in which no rate event
    carries a value that converts to NaN. *)
Theorem run_events_keep_range (evs : list ui_event) (w : World) :
  rate_in_range (rate_of w) = true ->
  Forall (fun ev => match ev with
                    | RateChange e => py_float str_to_float (value e) <> Ok B64.nan
                    | ToggleChange _ => True
                    end) evs ->
  rate_in_range (rate_of (run_events str_to_float evs w)) = true.
Proof.
  intros I F. revert w I.
  induction F as [|ev evs H F IH]; intros w I; cbn [run_events fold_left].
  - exact I.
  - apply IH. destruct ev as [e|e]; cbn [dispatch].
    + destruct (on_toggle_change_run e w) as (_ & _ & S).
      unfold rate_of in *. now rewrite S.
    + now apply on_rate_change_keeps_range.
Qed.

(** X3: [on_toggle_change] returns normally for every event value and
    every store (a stored rate of NaN, zero or infinity included), and
    what it stores is [bool(e.value)]. *)
Theorem on_toggle_change_never_raises (e : event) (w : World) :
  fst (on_toggle_change e w) = Ok tt /\
  enabled (state (snd (on_toggle_change e w))) = py_bool (value e).
Proof.
  destruct (on_toggle_change_run e w) as (K & S & _). split; assumption.
Qed.

(** X17: [apply_state] returns normally on every snapshot and every
    controller: no rate, NaN, zeros and infinities included, reaches a
    division by zero. *)
Theorem apply_state_never_raises (self : LEDController) (st : DroidState) (x : exn) :
  fst (apply_state (self, st)) <> Raise x.
Proof. rewrite apply_state_returns. discriminate. Qed.

(** X4: Switching off: a falsy value, or a stored rate [r] with [r <= 0]
    (which a NaN rate is not), leaves the output steady OFF. *)
Theorem on_toggle_change_off (e : event) (w : World) :
  py_bool (value e) = false \/ B64.leb (rate_of w) B64.zero = true ->
  fst (on_toggle_change e w) = Ok tt /\
  enabled (state (snd (on_toggle_change e w))) = py_bool (value e) /\
  mode_of (snd (on_toggle_change e w)) = STEADY_OFF.
Proof.
  intros H. rewrite on_toggle_change_unfold.
  rewrite update_hardware_off_path.
  - repeat split.
  - cbn. destruct H as [-> | H]; [reflexivity|].
    unfold rate_of in H. rewrite H. apply orb_true_r.
Qed.

(** X5: Switching on with a stored rate above 0 starts one blink with half
    the period on and half the period off. *)
Theorem on_toggle_change_on (e : event) (w : World) :
  py_bool (value e) = true ->
  B64.ltb B64.zero (rate_of w) = true ->
  let d := B64.div (B64.div B64.one (rate_of w)) B64.two in
  let w' := snd (on_toggle_change e w) in
  fst (on_toggle_change e w) = Ok tt /\
  mode_of w' = BLINKING d d /\
  blink_threads (led (led_controller w')) =
    S (blink_threads (led (led_controller w))).
Proof.
  intros T R d w'. subst w' d. rewrite on_toggle_change_unfold.
  rewrite update_hardware_blink_path.
  - repeat split.
  - cbn. rewrite T. unfold rate_of in R.
    now rewrite (ltb_zero_leb_false _ R).
Qed.

(** X6: Switching on while the stored rate is NaN commands a blink with NaN
    durations: [nan <= 0] is false, so the guard does not stop it. *)
Theorem on_toggle_change_on_nan (e : event) (w : World) :
  py_bool (value e) = true ->
  rate_of w = B64.nan ->
  fst (on_toggle_change e w) = Ok tt /\
  mode_of (snd (on_toggle_change e w)) = BLINKING B64.nan B64.nan.
Proof.
  intros T R. rewrite on_toggle_change_unfold.
  rewrite update_hardware_blink_path.
  - cbn. unfold rate_of in R. rewrite R. split; reflexivity.
  - cbn. rewrite T. unfold rate_of in R. now rewrite R.
Qed.

(** X7: An absent or non-numeric rate turns the output off, enabled or not. *)
Theorem on_rate_change_garbage_off (e : event) (w : World) :
  absent_or_non_numeric str_to_float (value e) = true ->
  mode_of (snd (on_rate_change str_to_float e w)) = STEADY_OFF.
Proof.
  intros A. rewrite (on_rate_change_default_unfold e w A).
  rewrite update_hardware_off_path; [reflexivity|].
  cbn. apply orb_true_r.
Qed.

(** Comparisons of a value in [[0, 50]]. *)
Lemma in_range_not_clamped (f : float) :
  rate_in_range f = true ->
  B64.ltb f B64.zero = false /\ B64.gtb f B64.fifty = false.
Proof.
  unfold rate_in_range. intros H. apply andb_prop in H as [L U]. split.
  - destruct f as [s|s| |s m e]; try reflexivity; destruct s; try reflexivity;
      discriminate L.
  - unfold B64.gtb, B64.leb, SFltb, SFleb in *.
    destruct f as [s|s| |s m e]; try reflexivity.
    + now destruct s.
    + destruct s; [reflexivity|]. unfold B64.fifty in *. cbn [SFcompare] in *.
      destruct (Z.compare_spec e (-47)) as [E|E|E].
      * subst e. cbn [Z.compare Pos.compare].
        change (Pos.compare_cont Eq 47 47) with Eq. cbn iota.
        assert (A : Pos.compare_cont Eq 7036874417766400 m =
                    CompOpp (Pos.compare_cont Eq m 7036874417766400))
          by (symmetry; apply (Pos.compare_cont_antisym _ _ Eq)).
        rewrite A. cbn [Z.compare Pos.compare] in U.
        change (Pos.compare_cont Eq 47 47) with Eq in U. cbn iota in U.
        now destruct (Pos.compare_cont Eq m 7036874417766400).
      * rewrite (proj2 (Z.compare_gt_iff (-47) e)) by lia. reflexivity.
      * discriminate U.
Qed.

(** X8: A value in [[0, 50]] is stored as it is, bit for bit. *)
Theorem on_rate_change_in_range_verbatim (e : event) (w : World) (f : float) :
  py_float str_to_float (value e) = Ok f ->
  rate_in_range f = true ->
  fst (on_rate_change str_to_float e w) = Ok tt /\
  rate_of (snd (on_rate_change str_to_float e w)) = f.
Proof.
  intros P R.
  destruct (on_rate_change_converted _ e w f P) as (K & _ & S).
  split; [exact K|]. unfold rate_of. rewrite S. unfold clamped.
  destruct (in_range_not_clamped f R) as [-> ->]. reflexivity.
Qed.

(** X9: A value below 0 (minus infinity included) is stored as +0.0, a value
    above 50 (plus infinity included) as 50.0. *)
Theorem on_rate_change_saturates (e : event) (w : World) (f : float) :
  py_float str_to_float (value e) = Ok f ->
  B64.ltb f B64.zero = true \/ B64.gtb f B64.fifty = true ->
  fst (on_rate_change str_to_float e w) = Ok tt /\
  rate_of (snd (on_rate_change str_to_float e w)) =
    (if B64.ltb f B64.zero then B64.zero else B64.fifty).
Proof.
  intros P H.
  destruct (on_rate_change_converted _ e w f P) as (K & _ & S).
  split; [exact K|]. unfold rate_of. rewrite S. unfold clamped.
  destruct (B64.ltb f B64.zero) eqn:L; [reflexivity|].
  destruct H as [H|H]; [discriminate H|]. now rewrite H.
Qed.


(** X10: A positive rate arriving while the output is enabled starts a blink
    at the clamped rate: half its period on, half off. *)
Theorem on_rate_change_enabled_blinks (e : event) (w : World) (f : float) :
  enabled (state w) = true ->
  py_float str_to_float (value e) = Ok f ->
  B64.ltb B64.zero f = true ->
  let r := if B64.gtb f B64.fifty then B64.fifty else f in
  let d := B64.div (B64.div B64.one r) B64.two in
  rate_of (snd (on_rate_change str_to_float e w)) = r /\
  mode_of (snd (on_rate_change str_to_float e w)) = BLINKING d d.
Proof.
  intros En P Pos r d.
  rewrite (on_rate_change_unfold e w f P).
  assert (C : clamped f = r).
  { unfold clamped. subst r.
    replace (B64.ltb f B64.zero) with false; [reflexivity|].
    destruct f as [s|s| |s m x]; try discriminate Pos; now destruct s. }
  assert (R : B64.ltb B64.zero r = true)
    by (subst r; destruct (B64.gtb f B64.fifty); [reflexivity|exact Pos]).
  rewrite update_hardware_blink_path.
  - cbn. rewrite C. split; reflexivity.
  - cbn. rewrite En, C. now rewrite (ltb_zero_leb_false _ R).
Qed.

(** The state that [update_hardware] and the store updates leave. *)
Lemma state_after_update (w : World) :
  state (snd (update_hardware w)) = state w.
Proof. apply update_hardware_run. Qed.

(** X13: A toggle and a rate change commute: whichever is handled first, the
    stored state and the mode of the output end up the same. *)
Theorem handlers_commute (et er : event) (w : World) :
  let a := snd (on_rate_change str_to_float er (snd (on_toggle_change et w))) in
  let b := snd (on_toggle_change et (snd (on_rate_change str_to_float er w))) in
  state a = state b /\ mode_of a = mode_of b.
Proof.
  intros a b. subst a b.
  destruct (on_rate_change_cases er) as [(f & _ & E)|[E|(x & E)]];
    rewrite !E, !on_toggle_change_unfold.
  - assert (S : state (snd (update_hardware (snd (set_flash_rate_hz (clamped f)
                   (snd (update_hardware (snd (set_enabled (py_bool (value et)) w))))))))
              = state (snd (update_hardware (snd (set_enabled (py_bool (value et))
                   (snd (update_hardware (snd (set_flash_rate_hz (clamped f) w))))))))).
    { rewrite !state_after_update. cbn. now rewrite !state_after_update. }
    split; [exact S|].
    apply update_hardware_mode_of_state.
    cbn. now rewrite !state_after_update.
  - assert (S : state (snd (update_hardware (snd (set_flash_rate_hz B64.zero
                   (snd (update_hardware (snd (set_enabled (py_bool (value et)) w))))))))
              = state (snd (update_hardware (snd (set_enabled (py_bool (value et))
                   (snd (update_hardware (snd (set_flash_rate_hz B64.zero w))))))))).
    { rewrite !state_after_update. cbn. now rewrite !state_after_update. }
    split; [exact S|].
    apply update_hardware_mode_of_state.
    cbn. now rewrite !state_after_update.
  - cbn [snd]. split; reflexivity.
Qed.

(** X14: a later toggle overwrites an earlier one: the state and the mode
    of the output are those of the later toggle alone. *)
Theorem last_toggle_wins (e' e : event) (w : World) :
  let a := snd (on_toggle_change e (snd (on_toggle_change e' w))) in
  let b := snd (on_toggle_change e w) in
  state a = state b /\ mode_of a = mode_of b.
Proof.
  intros a b. subst a b. rewrite !on_toggle_change_unfold.
  assert (S : state (snd (set_enabled (py_bool (value e))
                 (snd (update_hardware (snd (set_enabled (py_bool (value e')) w))))))
            = state (snd (set_enabled (py_bool (value e)) w))).
  { cbn. now rewrite state_after_update. }
  split.
  - now rewrite !state_after_update.
  - now apply update_hardware_mode_of_state.
Qed.

(** X15: a rate event that returns normally overwrites what an earlier
    rate event stored: the state and the mode of the output are those of
    the later event alone. *)
Theorem last_rate_wins (e' e : event) (w : World) :
  fst (on_rate_change str_to_float e w) = Ok tt ->
  let a := snd (on_rate_change str_to_float e
                  (snd (on_rate_change str_to_float e' w))) in
  let b := snd (on_rate_change str_to_float e w) in
  state a = state b /\ mode_of a = mode_of b.
Proof.
  intros K a b. subst a b.
  assert (En : enabled (state (snd (on_rate_change str_to_float e' w)))
               = enabled (state w)).
  { destruct (on_rate_change_cases e') as [(f & _ & E)|[E|(x & E)]];
      rewrite E; try rewrite state_after_update; reflexivity. }
  destruct (on_rate_change_cases e) as [(f & _ & E)|[E|(x & E)]].
  - rewrite !E.
    assert (S : state (snd (set_flash_rate_hz (clamped f)
                   (snd (on_rate_change str_to_float e' w))))
              = state (snd (set_flash_rate_hz (clamped f) w)))
      by (cbn; now rewrite En).
    split.
    + now rewrite !state_after_update.
    + now apply update_hardware_mode_of_state.
  - rewrite !E.
    assert (S : state (snd (set_flash_rate_hz B64.zero
                   (snd (on_rate_change str_to_float e' w))))
              = state (snd (set_flash_rate_hz B64.zero w)))
      by (cbn; now rewrite En).
    split.
    + now rewrite !state_after_update.
    + now apply update_hardware_mode_of_state.
  - rewrite E in K. discriminate K.
Qed.

End MoreHandlerProperties.

(* ===================================================================== *)
(** * The added properties on concrete inputs *)
(* ===================================================================== *)

Lemma run_events_keep_range_witness :
  let evs := [RateChange {| value := PyStr "75" |};
              ToggleChange {| value := PyBool true |};
              RateChange {| value := PyInt (2 ^ 1024) |};
              RateChange {| value := PyFloat B64.inf |}] in
  rate_in_range (rate_of World_init) = true /\
  rate_in_range (rate_of (run_events float_literal evs World_init)) = true.
Proof.
  split; [reflexivity|].
  apply (run_events_keep_range float_literal _ World_init eq_refl).
  repeat constructor; vm_compute; discriminate.
Defined.

Lemma on_toggle_change_off_witness :
  let e := {| value := PyStr EmptyString |} in
  let w := snd (on_toggle_change {| value := PyBool true |} World_init) in
  (py_bool (value e) = false \/ B64.leb (rate_of w) B64.zero = true) /\
  mode_of w = BLINKING (S754_finite false 4503599627370496 (-53))
                       (S754_finite false 4503599627370496 (-53)) /\
  mode_of (snd (on_toggle_change e w)) = STEADY_OFF.
Proof.
  split; [left; reflexivity|]. split; [reflexivity|].
  exact (proj2 (proj2 (on_toggle_change_off {| value := PyStr EmptyString |}
    (snd (on_toggle_change {| value := PyBool true |} World_init))
    (or_introl eq_refl)))).
Defined.

Lemma on_toggle_change_on_witness :
  let e := {| value := PyStr "off" |} in
  (py_bool (value e) = true /\ B64.ltb B64.zero (rate_of World_init) = true) /\
  mode_of (snd (on_toggle_change e World_init)) =
    BLINKING (S754_finite false 4503599627370496 (-53))
             (S754_finite false 4503599627370496 (-53)).
Proof.
  split; [split; reflexivity|].
  exact (proj1 (proj2 (on_toggle_change_on {| value := PyStr "off" |} World_init
                         eq_refl eq_refl))).
Defined.

Lemma on_toggle_change_on_nan_witness :
  let w := snd (on_rate_change float_literal {| value := PyStr "nan" |} World_init) in
  let e := {| value := PyBool true |} in
  (py_bool (value e) = true /\ rate_of w = B64.nan) /\
  mode_of (snd (on_toggle_change e w)) = BLINKING B64.nan B64.nan.
Proof.
  split; [split; vm_compute; reflexivity|].
  exact (proj2 (on_toggle_change_on_nan {| value := PyBool true |}
    (snd (on_rate_change float_literal {| value := PyStr "nan" |} World_init))
    eq_refl ltac:(vm_compute; reflexivity))).
Defined.

Lemma on_rate_change_garbage_off_witness :
  let w := snd (on_toggle_change {| value := PyBool true |} World_init) in
  let e := {| value := PyStr "1,5" |} in
  absent_or_non_numeric float_literal (value e) = true /\
  mode_of (snd (on_rate_change float_literal e w)) = STEADY_OFF.
Proof.
  split; [vm_compute; reflexivity|].
  exact (on_rate_change_garbage_off float_literal {| value := PyStr "1,5" |}
    (snd (on_toggle_change {| value := PyBool true |} World_init))
    ltac:(vm_compute; reflexivity)).
Defined.

Lemma on_rate_change_in_range_verbatim_witness :
  let e := {| value := PyStr "0.1" |} in
  let f := S754_finite false 7205759403792794 (-56) in
  (py_float float_literal (value e) = Ok f /\ rate_in_range f = true) /\
  rate_of (snd (on_rate_change float_literal e World_init)) = f.
Proof.
  split; [split; vm_compute; reflexivity|].
  exact (proj2 (on_rate_change_in_range_verbatim float_literal
    {| value := PyStr "0.1" |} World_init
    (S754_finite false 7205759403792794 (-56))
    ltac:(vm_compute; reflexivity) ltac:(vm_compute; reflexivity))).
Defined.

Lemma on_rate_change_saturates_witness :
  let e := {| value := PyStr "-Infinity" |} in
  (py_float float_literal (value e) = Ok (S754_infinity true) /\
   (B64.ltb (S754_infinity true) B64.zero = true \/
    B64.gtb (S754_infinity true) B64.fifty = true)) /\
  rate_of (snd (on_rate_change float_literal e World_init)) = B64.zero.
Proof.
  split; [split; [vm_compute; reflexivity|left; reflexivity]|].
  exact (proj2 (on_rate_change_saturates float_literal
    {| value := PyStr "-Infinity" |} World_init (S754_infinity true)
    ltac:(vm_compute; reflexivity) (or_introl eq_refl))).
Defined.

Lemma on_rate_change_enabled_blinks_witness :
  let w := snd (on_toggle_change {| value := PyBool true |} World_init) in
  let e := {| value := PyInt 1000 |} in
  let f := S754_finite false 8796093022208000 (-43) in
  let d := B64.div (B64.div B64.one B64.fifty) B64.two in
  (enabled (state w) = true /\ py_float float_literal (value e) = Ok f /\
   B64.ltb B64.zero f = true) /\
  rate_of (snd (on_rate_change float_literal e w)) = B64.fifty /\
  mode_of (snd (on_rate_change float_literal e w)) = BLINKING d d.
Proof.
  split; [repeat split; vm_compute; reflexivity|].
  exact (on_rate_change_enabled_blinks float_literal {| value := PyInt 1000 |}
    (snd (on_toggle_change {| value := PyBool true |} World_init))
    (S754_finite false 8796093022208000 (-43))
    eq_refl ltac:(vm_compute; reflexivity) eq_refl).
Defined.

Lemma on_rate_change_int_clamps_witness :
  let out := on_rate_change float_literal {| value := PyInt 7 |} World_init in
  Z.abs 7 < 2 ^ 1023 /\
  B64.is_real (rate_of (snd out)) = true /\
  (B64.to_Q (rate_of (snd out)) == 7)%Q.
Proof.
  split; [lia|].
  destruct (on_rate_change_int_clamps float_literal 7 World_init ltac:(lia))
    as (_ & R & Q).
  split; [exact R|]. cbv zeta. rewrite Q. vm_compute. reflexivity.
Defined.

Lemma on_rate_change_int_overflow_witness :
  2 ^ 1024 <= Z.abs (- 2 ^ 1024) /\
  on_rate_change float_literal {| value := PyInt (- 2 ^ 1024) |} World_init
  = (Raise OverflowError, World_init).
Proof.
  split; [lia|].
  exact (on_rate_change_int_overflow float_literal (- 2 ^ 1024) World_init
           ltac:(lia)).
Defined.

Lemma last_rate_wins_witness :
  let e' := {| value := PyStr "nan" |} in
  let e := {| value := PyFloat B64.two |} in
  fst (on_rate_change float_literal e World_init) = Ok tt /\
  rate_of (snd (on_rate_change float_literal e
                  (snd (on_rate_change float_literal e' World_init)))) = B64.two.
Proof.
  split; [reflexivity|].
  destruct (last_rate_wins float_literal {| value := PyStr "nan" |}
              {| value := PyFloat B64.two |} World_init eq_refl) as [S _].
  unfold rate_of. cbv zeta in S. rewrite S. reflexivity.
Defined.

Lemma apply_state_blinking_normal_rate_witness :
  let st := {| enabled := true;
               flash_rate_hz := S754_finite false 6755399441055744 (-51) |} in
  let sixth := S754_finite false 6004799503160661 (-55) in
  (enabled st = true /\ normal_rate (flash_rate_hz st) = true) /\
  B64.div B64.one (B64.mul B64.two (flash_rate_hz st)) = sixth /\
  mode (led (fst (snd (apply_state (LEDController_init 17, st))))) =
    BLINKING sixth sixth.
Proof.
  split; [split; reflexivity|]. split; [vm_compute; reflexivity|].
  exact (apply_state_blinking_normal_rate (LEDController_init 17)
           {| enabled := true;
              flash_rate_hz := S754_finite false 6755399441055744 (-51) |}
           eq_refl eq_refl).
Defined.
